(** * qsl: the control menu of the image labeler

    A shallow embedding of
    [qslwidgets/src/react-image-labeler/components/ControlMenu.tsx]:
    the required-field validation, the [finishRegion] and [setLabels]
    transitions of the draft, the keyboard shortcut handler, the drawing
    mode and mask brush controls, and the [onSave] callback handed to the
    configuration editor.

    JavaScript objects used as dictionaries are finite maps of their own
    entries, with the members a plain object inherits looked up beside
    them; arrays are lists, optional properties are [option]s, a thrown
    string is the [Throw] outcome, and the calls the keyboard handler makes
    on its collaborators are recorded as a list of effects. *)

From Stdlib Require Import ZArith.
From stdpp Require Import base strings list gmap.

(** ** Data model *)

(** Modelled from the spec: [library/types] is not among the sources. The
    layout of a label panel is one of two directions. *)
Inductive Layout := column | row.

(** Modelled from the spec: one choice of a label type, [{name, displayName}],
    with the keyboard shortcut that [shortcutify] assigns. *)
Module LabelOption.
Record t := mk {
  name : string;
  displayName : string;
  shortcut : option string;
}.
End LabelOption.

(** Modelled from the spec: a label type definition ([LabelConfig] in the
    source), with the fields of spec section 3 and the [hiderequired] flag
    that the drawing mode panel of the source sets. *)
Module LabelConfig.
Record t := mk {
  name : string;
  displayName : string;
  options : list LabelOption.t;
  multiple : bool;
  freeform : bool;
  required : bool;
  hiderequired : bool;
  layout : Layout;
}.
End LabelConfig.

(** The two editing levels, [level as "regions" | "image"] in the source. *)
Module Level.
Inductive t := image | regions.
End Level.

(** Modelled from the spec: the configuration holds one list of definitions
    per level. The source reads both through [other.config?.image || []], so
    the configuration and each of its lists may be absent. *)
Module Config.
Record t := mk {
  image : option (list LabelConfig.t);
  regions : option (list LabelConfig.t);
}.

(** [config[level]] *)
Definition get (level : Level.t) (c : t) : option (list LabelConfig.t) :=
  match level with
  | Level.image => image c
  | Level.regions => regions c
  end.

(** [{...config, [level]: l}] *)
Definition set (level : Level.t) (l : list LabelConfig.t) (c : t) : t :=
  match level with
  | Level.image => mk (Some l) (regions c)
  | Level.regions => mk (image c) (Some l)
  end.
End Config.

(** Modelled from the spec: a label assignment maps the name of a label type
    to the selected values; a name that is not a key is unanswered. *)
Abbreviation LabelAssignment := (gmap string (list string)).

(** The three drawing modes, the option names of the drawing mode panel. *)
Module Mode.
Inductive t := boxes | polygons | masks.

Definition eqb (a b : t) : bool :=
  match a, b with
  | boxes, boxes | polygons, polygons | masks, masks => true
  | _, _ => false
  end.
End Mode.

(** Modelled from the spec: the geometry of a region is specific to the mode
    it was drawn in. The control menu never inspects it; each kind carries
    its numbers. *)
Inductive Geometry :=
| box_geometry (corners : list Z)
| polygon_geometry (points : list Z)
| mask_geometry (values : list Z).

(** Modelled from the spec: a region,
    [{id, geometry, labels, readonly, metadata?}]. *)
Module Region.
Record t := mk {
  id : string;
  geometry : Geometry;
  labels : LabelAssignment;
  readonly : bool;
  metadata : option (gmap string string);
}.
End Region.

(** Modelled from the spec: the active slot of the drawing state. The source
    reaches the region being edited as [draft.drawing.active.region]. *)
Module Active.
Record t := mk { region : Region.t }.
End Active.

(** Modelled from the spec: the drawing sub-state,
    [{mode, active, flood, threshold, radius}]. *)
Module Drawing.
Record t := mk {
  mode : Mode.t;
  active : option Active.t;
  flood : bool;
  threshold : Z;
  radius : Z;
}.
End Drawing.

(** Modelled from the spec: the labels of a draft, the image level assignment
    and one list of committed regions per drawing mode. *)
Module DraftLabels.
Record t := mk {
  image : LabelAssignment;
  boxes : list Region.t;
  polygons : list Region.t;
  masks : list Region.t;
}.

(** [labels[mode]] *)
Definition get (m : Mode.t) (l : t) : list Region.t :=
  match m with
  | Mode.boxes => boxes l
  | Mode.polygons => polygons l
  | Mode.masks => masks l
  end.

(** [{...labels, [mode]: rs}] *)
Definition set (m : Mode.t) (rs : list Region.t) (l : t) : t :=
  match m with
  | Mode.boxes => mk (image l) rs (polygons l) (masks l)
  | Mode.polygons => mk (image l) (boxes l) rs (masks l)
  | Mode.masks => mk (image l) (boxes l) (polygons l) rs
  end.
End DraftLabels.

(** Modelled from the spec: the draft, [{labels, drawing, dirty}]. *)
Module Draft.
Record t := mk {
  labels : DraftLabels.t;
  drawing : Drawing.t;
  dirty : bool;
}.
End Draft.

(** The optional members of the [Callbacks] interface. The callbacks belong
    to the host; the control menu only tests which of them are present and
    calls them. *)
Module Callback.
Inductive t :=
| onKeyboardEvent | onSave | onNext | onPrev | onDelete | onIgnore
| onUnignore | onSaveConfig | onReset | onSelectAll | onSelectNone
| onShowIndex | onDownload | onUndo.
End Callback.

(** The properties of the component, but for [draft] and [setDraft] which
    the transitions take and return, and [direction] which only affects the
    layout. [callbacks c] tells whether callback [c] is present. *)
Module Props.
Record t := mk {
  config : option Config.t;
  callbacks : Callback.t → bool;
  disabled : bool;
  showNavigation : bool;
  allowRegion : bool;
}.
End Props.

(** The fields of a [KeyboardEvent] that the handler reads. *)
Module KeyboardEvent.
Record t := mk {
  key : string;
  altKey : bool;
  ctrlKey : bool;
  shiftKey : bool;
  metaKey : bool;
}.
End KeyboardEvent.

(** The keys of [refs], one per button that a shortcut can activate. *)
Module Target.
Inductive t :=
| next | prev | save | finishRegion | clearRegion | delete | ignore
| selectAll | selectNone | undoRegion | undo.
End Target.

(** The component state, [{configEditorOpen, index}]. *)
Module State.
Record t := mk {
  configEditorOpen : bool;
  index : option Z;
}.
End State.

(** What the keyboard handler does to its collaborators, in call order.
    [SimulateClick t] stands for
    [simulateClick(refs[t].current).then(setFocus)]. *)
Inductive Effect :=
| CallOnKeyboardEvent (event : KeyboardEvent.t)
| SetToast (message : string)
| SimulateClick (target : Target.t)
| PreventDefault
| StopPropagation.

(** A call either completes with a value or throws a string. *)
Inductive Outcome (A : Type) :=
| Ok (a : A)
| Throw (message : string).
Arguments Ok {A} a.
Arguments Throw {A} message.

(** What a button does when it is activated. *)
Inductive Action :=
| DoFinishRegion (save : bool)
| DoCall (callback : Callback.t).

(** A rendered button: its [disabled] property and its [onClick]. *)
Module Button.
Record t := mk {
  disabled : bool;
  onClick : Action;
}.
End Button.

(** What activating a button led to. *)
Inductive Dispatch :=
| NotDispatched
| DraftSet (draft : Draft.t)
| Thrown (message : string)
| Called (callback : Callback.t).

(** The truthiness of an optional object: [x ? ... : ...], [!!x]. *)
Definition present {A} (x : option A) : bool :=
  match x with Some _ => true | None => false end.

(** [Array.prototype.slice]: a negative index counts from the end, both
    indices are clamped to the array, an absent end is the length. *)
Definition slice {A} (start : Z) (stop : option Z) (l : list A) : list A :=
  let len := Z.of_nat (length l) in
  let relative i := if (i <? 0)%Z then Z.max (len + i) 0 else Z.min i len in
  let k := relative start in
  let final := match stop with Some e => relative e | None => len end in
  take (Z.to_nat (final - k)) (drop (Z.to_nat k) l).

(** [Array.prototype.findIndex], [-1] when no element satisfies [f]. *)
Fixpoint findIndex_from {A} (f : A → bool) (i : Z) (l : list A) : Z :=
  match l with
  | [] => (-1)%Z
  | x :: l' => if f x then i else findIndex_from f (i + 1)%Z l'
  end.

Definition findIndex {A} (f : A → bool) (l : list A) : Z :=
  findIndex_from f 0%Z l.

(** A plain object inherits the members of [Object.prototype], and
    [labels[name]] finds them when [labels] has no entry of its own under
    [name]. [inheritedLength name] is what [(labels[name] || []).length > 0]
    then compares with 0: the number of parameters of an inherited method;
    0 for [toString], [toLocaleString] and [valueOf], which take none, for
    [__proto__], the prototype itself, whose [length] is undefined and not
    above 0, and for every other name, where [labels[name]] is undefined and
    [[]] stands in. *)
Definition inheritedLength (name : string) : nat :=
  if existsb (String.eqb name)
       ["constructor"; "hasOwnProperty"; "isPrototypeOf";
        "propertyIsEnumerable"; "__lookupGetter__"; "__lookupSetter__"]
  then 1
  else if existsb (String.eqb name) ["__defineGetter__"; "__defineSetter__"]
  then 2
  else 0.

(** [(labels[name] || []).length]: the entry of [labels] under [name] is an
    array, empty or not; without one the inherited member counts. *)
Definition entryLength (labels : LabelAssignment) (name : string) : nat :=
  match labels !! name with
  | Some values => length values
  | None => inheritedLength name
  end.

(** ** The mask canvas

    The effect of the [Mask] component (appended to [ControlMenu.tsx] in the
    sources): it paints a bitmap of node values onto a canvas. *)

(** The bitmap as the effect reads it: [bitmap.dimensions.width],
    [bitmap.dimensions.height] and [bitmap.values]. *)
Module Dimensions.
Record t := mk { width : nat; height : nat }.
End Dimensions.

Module Bitmap.
Record t := mk { dimensions : Dimensions.t; values : list Z }.
End Bitmap.

(** [activeColor: "red" | "blue"] *)
Module ActiveColor.
Inductive t := red | blue.
End ActiveColor.

(** [canvas.current], and whether [getContext("2d")] yields a context. *)
Inductive CanvasRef :=
| unmounted
| mounted (hasContext : bool).

(** The image handed to [putImageData], with the size given to the canvas. *)
Module ImageData.
Record t := mk { width : nat; height : nat; data : list Z }.
End ImageData.

(** A [Uint8ClampedArray] stores every number clamped to a byte. *)
Definition clampByte (v : Z) : Z := Z.max 0 (Z.min 255 v).

Definition Uint8ClampedArray_from (l : list Z) : list Z := clampByte <$> l.

(** [bytes.forEach((v, i) => (data[i] = v))] on a typed array [data]: a
    write past its end is dropped. [i] is the index of the first byte. *)
Fixpoint paint_from (i : nat) (data bytes : list Z) : list Z :=
  match bytes with
  | [] => data
  | v :: bytes' => paint_from (S i) (<[i := clampByte v]> data) bytes'
  end.

(** [context.createImageData(width, height)]: transparent black pixels, four
    bytes each; the canvas rejects an empty image. *)
Definition createImageData (width height : nat) : Outcome (list Z) :=
  if (width =? 0) || (height =? 0) then Throw "IndexSizeError"
  else Ok (replicate (4 * (width * height)) 0%Z).

Section Mask.

(** [valueToNodeStatus[v] === "matched"]: the table is imported from
    [library/flooding], which is not among the sources. *)
Variable matched : Z → bool.

Definition activeColorValues (activeColor : ActiveColor.t) : list Z :=
  match activeColor with
  | ActiveColor.red => [255; 0; 0; 255]%Z
  | ActiveColor.blue => [0; 0; 255; 255]%Z
  end.

(** [Array.from(bitmap.values).map(...).flat()] *)
Definition maskBytes (activeColor : ActiveColor.t) (values : list Z) : list Z :=
  mjoin ((λ v, if matched v then activeColorValues activeColor
               else [0; 0; 0; 0]%Z) <$> values).

(** The effect of [Mask]: [Ok None] when it has nothing to do, otherwise
    the image put on the canvas. *)
Definition maskEffect (bitmap : option Bitmap.t) (activeColor : ActiveColor.t)
    (canvas : CanvasRef) : Outcome (option ImageData.t) :=
  match bitmap, canvas with
  | Some bitmap, mounted hasContext =>
      if negb hasContext then Throw "Failed to find canvas context."
      else
        let width := Dimensions.width (Bitmap.dimensions bitmap) in
        let height := Dimensions.height (Bitmap.dimensions bitmap) in
        match createImageData width height with
        | Throw message => Throw message
        | Ok pixels =>
            Ok (Some
              (ImageData.mk width height
                 (paint_from 0 pixels
                    (Uint8ClampedArray_from
                       (maskBytes activeColor (Bitmap.values bitmap))))))
        end
  | _, _ => Ok None
  end.

End Mask.

(** ** The labeler frame

    The state that [Labeler] (an unnamed source file) keeps for the toast,
    which the control menu reaches through the context. *)
Module Labeler.

(** [useState("")] and [useState(false)] *)
Record State := mk { toast : string; hasFocus : bool }.

Definition setToast (message : string) (s : State) : State :=
  mk message (hasFocus s).

(** [open={toast !== ""}] of the snackbar. *)
Definition snackbarOpen (s : State) : bool := negb (toast s =? "")%string.

(** [handleClose]: the next state, and whether the hidden input, when it is
    mounted, was focused. *)
Definition handleClose (hiddenMounted : bool) (s : State) : State * bool :=
  (mk "" (hasFocus s), hiddenMounted).

(** The toast state once the effects of a keyboard event have run. *)
Definition notified (effects : list Effect) (s : State) : State :=
  foldl (λ s e, match e with SetToast message => setToast message s | _ => s end)
    s effects.

End Labeler.

(** ** Sample data

    A configuration with one required definition per level, a clean draft
    without labels, a draft whose active region is read-only, and the key
    events used below. *)

Definition quality : LabelConfig.t :=
  {| LabelConfig.name := "quality";
     LabelConfig.displayName := "Quality";
     LabelConfig.options :=
       [LabelOption.mk "good" "Good" None; LabelOption.mk "bad" "Bad" None];
     LabelConfig.multiple := false;
     LabelConfig.freeform := false;
     LabelConfig.required := true;
     LabelConfig.hiderequired := false;
     LabelConfig.layout := row |}.

Definition kind : LabelConfig.t :=
  {| LabelConfig.name := "kind";
     LabelConfig.displayName := "Kind";
     LabelConfig.options :=
       [LabelOption.mk "car" "Car" None; LabelOption.mk "bike" "Bike" None];
     LabelConfig.multiple := true;
     LabelConfig.freeform := false;
     LabelConfig.required := true;
     LabelConfig.hiderequired := false;
     LabelConfig.layout := column |}.

Definition sample_config : Config.t :=
  {| Config.image := Some [quality]; Config.regions := Some [kind] |}.

Definition sample_props : Props.t :=
  {| Props.config := Some sample_config;
     Props.callbacks := λ _, true;
     Props.disabled := false;
     Props.showNavigation := true;
     Props.allowRegion := true |}.

Definition bare_props : Props.t :=
  {| Props.config := None;
     Props.callbacks := λ _, true;
     Props.disabled := false;
     Props.showNavigation := true;
     Props.allowRegion := true |}.

Definition clean_draft : Draft.t :=
  {| Draft.labels :=
       {| DraftLabels.image := ∅;
          DraftLabels.boxes := [];
          DraftLabels.polygons := [];
          DraftLabels.masks := [] |};
     Draft.drawing :=
       {| Drawing.mode := Mode.boxes;
          Drawing.active := None;
          Drawing.flood := false;
          Drawing.threshold := 10;
          Drawing.radius := 5 |};
     Draft.dirty := false |}.

Definition dirty_draft : Draft.t :=
  {| Draft.labels := Draft.labels clean_draft;
     Draft.drawing := Draft.drawing clean_draft;
     Draft.dirty := true |}.

Definition readonly_region : Region.t :=
  {| Region.id := "r1";
     Region.geometry := box_geometry [0; 0; 10; 10]%Z;
     Region.labels := {[ "kind" := ["car"] ]};
     Region.readonly := true;
     Region.metadata := None |}.

Definition unlabelled_region : Region.t :=
  {| Region.id := "r2";
     Region.geometry := box_geometry [5; 5; 20; 20]%Z;
     Region.labels := ∅;
     Region.readonly := false;
     Region.metadata := None |}.

Definition editing (region : Region.t) : Draft.t :=
  {| Draft.labels := Draft.labels clean_draft;
     Draft.drawing :=
       {| Drawing.mode := Mode.boxes;
          Drawing.active := Some (Active.mk region);
          Drawing.flood := false;
          Drawing.threshold := 10;
          Drawing.radius := 5 |};
     Draft.dirty := false |}.

Definition press (key : string) : KeyboardEvent.t :=
  {| KeyboardEvent.key := key;
     KeyboardEvent.altKey := false;
     KeyboardEvent.ctrlKey := false;
     KeyboardEvent.shiftKey := false;
     KeyboardEvent.metaKey := false |}.

Definition note : LabelConfig.t :=
  {| LabelConfig.name := "note";
     LabelConfig.displayName := "Note";
     LabelConfig.options := [];
     LabelConfig.multiple := false;
     LabelConfig.freeform := true;
     LabelConfig.required := false;
     LabelConfig.hiderequired := false;
     LabelConfig.layout := column |}.

Definition optional_props : Props.t :=
  {| Props.config :=
       Some {| Config.image := Some [note]; Config.regions := Some [note] |};
     Props.callbacks := λ _, true;
     Props.disabled := false;
     Props.showNavigation := true;
     Props.allowRegion := true |}.

(** A required definition named after a member of [Object.prototype]. *)
Definition constructor_field : LabelConfig.t :=
  {| LabelConfig.name := "constructor";
     LabelConfig.displayName := "Constructor";
     LabelConfig.options := [];
     LabelConfig.multiple := false;
     LabelConfig.freeform := true;
     LabelConfig.required := true;
     LabelConfig.hiderequired := false;
     LabelConfig.layout := column |}.

Definition constructor_props : Props.t :=
  {| Props.config :=
       Some {| Config.image := Some [constructor_field];
               Config.regions := None |};
     Props.callbacks := λ _, true;
     Props.disabled := false;
     Props.showNavigation := true;
     Props.allowRegion := true |}.

Definition wide_props : Props.t :=
  {| Props.config :=
       Some {| Config.image := Some [quality; kind]; Config.regions := None |};
     Props.callbacks := λ _, true;
     Props.disabled := false;
     Props.showNavigation := true;
     Props.allowRegion := true |}.

Definition ctrl_z : KeyboardEvent.t :=
  {| KeyboardEvent.key := "z";
     KeyboardEvent.altKey := false;
     KeyboardEvent.ctrlKey := true;
     KeyboardEvent.shiftKey := false;
     KeyboardEvent.metaKey := false |}.

(** A bitmap of two pixels, the first of which counts as matched. *)
Definition sample_bitmap : Bitmap.t :=
  {| Bitmap.dimensions := Dimensions.mk 2 1; Bitmap.values := [1; 0]%Z |}.

Definition is_one (v : Z) : bool := (v =? 1)%Z.

(** A sample of what [shortcutify] may be: every option without a shortcut
    gets the first letter of its name, and nothing else changes. *)
Definition shortcutify_initials (l : list LabelConfig.t) : list LabelConfig.t :=
  (λ c,
     {| LabelConfig.name := LabelConfig.name c;
        LabelConfig.displayName := LabelConfig.displayName c;
        LabelConfig.options :=
          (λ o,
             {| LabelOption.name := LabelOption.name o;
                LabelOption.displayName := LabelOption.displayName o;
                LabelOption.shortcut :=
                  match LabelOption.shortcut o with
                  | Some key => Some key
                  | None => Some (String.substring 0 1 (LabelOption.name o))
                  end |}) <$> LabelConfig.options c;
        LabelConfig.multiple := LabelConfig.multiple c;
        LabelConfig.freeform := LabelConfig.freeform c;
        LabelConfig.required := LabelConfig.required c;
        LabelConfig.hiderequired := LabelConfig.hiderequired c;
        LabelConfig.layout := LabelConfig.layout c |}) <$> l.

(** The value of [computedState], but for [direction] (layout only) and
    [editConfig] (given below as a function of its own). *)
Module ComputedState.
Record t := mk {
  level : Level.t;
  activeConfig : list LabelConfig.t;
  config : Config.t;
  allowRegionSelection : bool;
  disableLabelPanel : bool;
  labels : LabelAssignment;
}.
End ComputedState.

(** A function on lists of definitions that returns the definitions it was
    given, in the same order, with their names and [required] flags. *)
Definition PreservesFields (f : list LabelConfig.t → list LabelConfig.t) : Prop :=
  ∀ l,
    (λ c, (LabelConfig.name c, LabelConfig.required c)) <$> f l =
    (λ c, (LabelConfig.name c, LabelConfig.required c)) <$> l.

(** ** The control menu *)

Section ControlMenu.

(** [shortcutify] is imported from [library/utils], which is not among the
    sources; it is a parameter of the development. *)
Variable shortcutify : list LabelConfig.t → list LabelConfig.t.

(** Modelled from the spec: the definitions of a level are a pure projection
    of the configuration that preserves the order the caller supplied, so
    [shortcutify] returns the definitions it was given, in the same order,
    with their names and [required] flags untouched. *)
Hypothesis shortcutify_fields : PreservesFields shortcutify.

Definition computedState (props : Props.t) (draft : Draft.t) : ComputedState.t :=
  let level :=
    if present (Drawing.active (Draft.drawing draft))
    then Level.regions else Level.image in
  let config :=
    Config.mk
      (Some (shortcutify (default [] (Props.config props ≫= Config.image))))
      (Some (shortcutify (default [] (Props.config props ≫= Config.regions)))) in
  let activeConfig := default [] (Config.get level config) in
  {| ComputedState.level := level;
     ComputedState.activeConfig := activeConfig;
     ComputedState.config := config;
     ComputedState.allowRegionSelection :=
       match Config.regions config with
       | Some regions => (0 <? length regions) && Props.allowRegion props
       | None => false
       end;
     ComputedState.disableLabelPanel :=
       Props.disabled props ||
       match Drawing.active (Draft.drawing draft) with
       | Some active => Region.readonly (Active.region active)
       | None => false
       end;
     ComputedState.labels :=
       match Drawing.active (Draft.drawing draft) with
       | Some active => Region.labels (Active.region active)
       | None => DraftLabels.image (Draft.labels draft)
       end |}.

Definition requiredFieldsFilled (props : Props.t) (draft : Draft.t) : bool :=
  match Drawing.active (Draft.drawing draft) with
  | Some active =>
      forallb
        (λ c, negb (LabelConfig.required c) ||
              (0 <? entryLength (Region.labels (Active.region active))
                      (LabelConfig.name c)))
        (ComputedState.activeConfig (computedState props draft))
  | None =>
      forallb
        (λ c, negb (LabelConfig.required c) ||
              (0 <? entryLength (DraftLabels.image (Draft.labels draft))
                      (LabelConfig.name c)))
        (ComputedState.activeConfig (computedState props draft))
  end.

(** The result is the draft handed to [setDraft]. *)
Definition finishRegion (save : bool) (draft : Draft.t) : Outcome Draft.t :=
  match Drawing.active (Draft.drawing draft) with
  | None => Throw "Called to finish region but no region is selected."
  | Some active =>
      let mode := Drawing.mode (Draft.drawing draft) in
      Ok {| Draft.labels :=
              DraftLabels.set mode
                ((if save then [Active.region active] else []) ++
                 DraftLabels.get mode (Draft.labels draft))
                (Draft.labels draft);
            Draft.drawing :=
              {| Drawing.mode := mode;
                 Drawing.active := None;
                 Drawing.flood := Drawing.flood (Draft.drawing draft);
                 Drawing.threshold := Drawing.threshold (Draft.drawing draft);
                 Drawing.radius := Drawing.radius (Draft.drawing draft) |};
            Draft.dirty := true |}
  end.

(** The buttons of the menu as rendered for [draft]: [None] when the button
    is not rendered, so that [refs[target].current] is null. *)
Definition button (props : Props.t) (draft : Draft.t) (target : Target.t)
  : option Button.t :=
  let callbacks := Props.callbacks props in
  let disabled := Props.disabled props in
  let rendered (shown : bool) (b : Button.t) := if shown then Some b else None in
  match Drawing.active (Draft.drawing draft) with
  | Some active =>
      match target with
      | Target.finishRegion =>
          Some (Button.mk (negb (requiredFieldsFilled props draft))
                          (DoFinishRegion true))
      | Target.clearRegion =>
          Some (Button.mk (Region.readonly (Active.region active))
                          (DoFinishRegion false))
      | Target.undoRegion =>
          rendered (callbacks Callback.onUndo)
            (Button.mk disabled (DoCall Callback.onUndo))
      | _ => None
      end
  | None =>
      match target with
      | Target.selectAll =>
          rendered (callbacks Callback.onSelectAll)
            (Button.mk (negb (callbacks Callback.onSelectAll) || disabled)
                       (DoCall Callback.onSelectAll))
      | Target.selectNone =>
          rendered (callbacks Callback.onSelectNone)
            (Button.mk (negb (callbacks Callback.onSelectNone) || disabled)
                       (DoCall Callback.onSelectNone))
      | Target.save =>
          Some (Button.mk (negb (callbacks Callback.onSave) || disabled ||
                           negb (requiredFieldsFilled props draft))
                          (DoCall Callback.onSave))
      | Target.ignore =>
          rendered (callbacks Callback.onIgnore || callbacks Callback.onUnignore)
            (Button.mk disabled
               (DoCall (if callbacks Callback.onIgnore
                        then Callback.onIgnore else Callback.onUnignore)))
      | Target.delete =>
          rendered (callbacks Callback.onDelete)
            (Button.mk disabled (DoCall Callback.onDelete))
      | Target.undo =>
          rendered (callbacks Callback.onUndo)
            (Button.mk disabled (DoCall Callback.onUndo))
      | Target.prev =>
          rendered (callbacks Callback.onPrev || callbacks Callback.onNext ||
                    Props.showNavigation props)
            (Button.mk (negb (callbacks Callback.onPrev) || Draft.dirty draft)
                       (DoCall Callback.onPrev))
      | Target.next =>
          rendered (callbacks Callback.onPrev || callbacks Callback.onNext ||
                    Props.showNavigation props)
            (Button.mk (negb (callbacks Callback.onNext) || Draft.dirty draft)
                       (DoCall Callback.onNext))
      | _ => None
      end
  end.

(** The part of the keyboard handler from [let target] to the end of the
    [switch]: [None] when the handler returns early, otherwise the toasts
    emitted inside the [switch] and the value of [target] after it. *)
Definition resolveTarget (draft : Draft.t) (event : KeyboardEvent.t)
  : option (list Effect * option Target.t) :=
  let key := KeyboardEvent.key event in
  let ctrlKey := KeyboardEvent.ctrlKey event in
  let shiftKey := KeyboardEvent.shiftKey event in
  let metaKey := KeyboardEvent.metaKey event in
  let active := present (Drawing.active (Draft.drawing draft)) in
  if KeyboardEvent.altKey event then None
  else if (key =? "A")%string then
    Some ([], if ctrlKey && shiftKey then Some Target.selectNone else None)
  else if (key =? "a")%string then
    Some ([], if ctrlKey && negb shiftKey then Some Target.selectAll else None)
  else if (key =? "z")%string then
    Some ([], if negb (Bool.eqb metaKey ctrlKey)
              then if active then Some Target.undoRegion else Some Target.undo
              else None)
  else if (key =? "ArrowRight")%string then
    let target := if ctrlKey || shiftKey then None else Some Target.next in
    if Draft.dirty draft && present target
    then Some ([SetToast
      "Please save or reset your changes before advancing to next item."], None)
    else Some ([], target)
  else if (key =? "ArrowLeft")%string then
    if Draft.dirty draft
    then Some ([SetToast
      "Please save or reset your changes before returning to previous item."],
      None)
    else Some ([], Some Target.prev)
  else if (key =? "Enter")%string then
    Some ([], if ctrlKey || shiftKey then None
              else if active then Some Target.finishRegion
              else Some Target.save)
  else if (key =? "Backspace")%string || (key =? "Delete")%string then
    Some ([], if ctrlKey || shiftKey then None
              else if active then Some Target.clearRegion
              else Some Target.delete)
  else None.

(** [target == "finishRegion" || target == "save"] *)
Definition commitClass (target : option Target.t) : bool :=
  match target with
  | Some Target.finishRegion | Some Target.save => true
  | _ => false
  end.

(** The first statement of the keyboard handler: the event is handed to the
    host, when it listens. *)
Definition forwarded (props : Props.t) (event : KeyboardEvent.t) : list Effect :=
  if Props.callbacks props Callback.onKeyboardEvent
  then [CallOnKeyboardEvent event] else [].

(** The handler registered with [useKeyboardEvent]. *)
Definition keyboardHandler (props : Props.t) (draft : Draft.t)
    (event : KeyboardEvent.t) : list Effect :=
  forwarded props event ++
  match resolveTarget draft event with
  | None => []
  | Some (toasts, target) =>
      toasts ++
      if commitClass target && negb (requiredFieldsFilled props draft)
      then [SetToast "Please fill in all required fields."]
      else
        match target with
        | Some t =>
            if present (button props draft t)
            then [SimulateClick t; PreventDefault; StopPropagation]
            else []
        | None => []
        end
  end.

(** Modelled from the spec: [simulateClick] ([library/utils]) is not among
    the sources; it simulates the activation of a button. A button that is
    not rendered or is disabled does nothing, [ButtonWithTooltip] drops the
    [onClick] of a disabled button, and an absent callback is no handler. *)
Definition click (props : Props.t) (draft : Draft.t) (target : Target.t)
  : Dispatch :=
  match button props draft target with
  | None => NotDispatched
  | Some b =>
      if Button.disabled b then NotDispatched
      else
        match Button.onClick b with
        | DoFinishRegion save =>
            match finishRegion save draft with
            | Ok draft' => DraftSet draft'
            | Throw message => Thrown message
            end
        | DoCall callback =>
            if Props.callbacks props callback then Called callback
            else NotDispatched
        end
  end.

(** The draft of the component once the effects of the keyboard handler have
    taken place: only a simulated click that reaches [finishRegion] calls
    [setDraft]. *)
Definition draftAfter (props : Props.t) (draft : Draft.t)
    (effects : list Effect) : Draft.t :=
  foldl
    (λ d e,
       match e with
       | SimulateClick t =>
           match click props d t with DraftSet d' => d' | _ => d end
       | _ => d
       end)
    draft effects.

Definition setLabels (current : LabelAssignment) (draft : Draft.t) : Draft.t :=
  {| Draft.labels :=
       match Drawing.active (Draft.drawing draft) with
       | Some _ => Draft.labels draft
       | None =>
           DraftLabels.mk current
             (DraftLabels.boxes (Draft.labels draft))
             (DraftLabels.polygons (Draft.labels draft))
             (DraftLabels.masks (Draft.labels draft))
       end;
     Draft.drawing :=
       match Drawing.active (Draft.drawing draft) with
       | Some active =>
           {| Drawing.mode := Drawing.mode (Draft.drawing draft);
              Drawing.active :=
                Some (Active.mk
                  {| Region.id := Region.id (Active.region active);
                     Region.geometry := Region.geometry (Active.region active);
                     Region.labels := current;
                     Region.readonly := Region.readonly (Active.region active);
                     Region.metadata := Region.metadata (Active.region active) |});
              Drawing.flood := Drawing.flood (Draft.drawing draft);
              Drawing.threshold := Drawing.threshold (Draft.drawing draft);
              Drawing.radius := Drawing.radius (Draft.drawing draft) |}
       | None => Draft.drawing draft
       end;
     Draft.dirty := true |}.

(** The [setLabels] of the drawing mode panel, with [mode] for
    [labels.drawingMode[0]]: the panel offers the three modes and exactly one
    of them is selected. *)
Definition setDrawingMode (mode : Mode.t) (draft : Draft.t) : Draft.t :=
  {| Draft.labels := Draft.labels draft;
     Draft.drawing :=
       {| Drawing.mode := mode;
          Drawing.active := Drawing.active (Draft.drawing draft);
          Drawing.flood := Drawing.flood (Draft.drawing draft);
          Drawing.threshold := Drawing.threshold (Draft.drawing draft);
          Drawing.radius := Drawing.radius (Draft.drawing draft) |};
     Draft.dirty := Draft.dirty draft |}.

(** The [onChange] of the flood checkbox. *)
Definition setFlood (flood : bool) (draft : Draft.t) : Draft.t :=
  {| Draft.labels := Draft.labels draft;
     Draft.drawing :=
       if Mode.eqb (Drawing.mode (Draft.drawing draft)) Mode.masks
       then {| Drawing.mode := Drawing.mode (Draft.drawing draft);
               Drawing.active := Drawing.active (Draft.drawing draft);
               Drawing.flood := flood;
               Drawing.threshold := Drawing.threshold (Draft.drawing draft);
               Drawing.radius := Drawing.radius (Draft.drawing draft) |}
       else Draft.drawing draft;
     Draft.dirty := Draft.dirty draft |}.

(** The [onValueChange] of the flood threshold slider. *)
Definition setThreshold (value : Z) (draft : Draft.t) : Draft.t :=
  {| Draft.labels := Draft.labels draft;
     Draft.drawing :=
       {| Drawing.mode := Drawing.mode (Draft.drawing draft);
          Drawing.active := Drawing.active (Draft.drawing draft);
          Drawing.flood := Drawing.flood (Draft.drawing draft);
          Drawing.threshold := value;
          Drawing.radius := Drawing.radius (Draft.drawing draft) |};
     Draft.dirty := Draft.dirty draft |}.

(** The [onValueChange] of the cursor size slider. *)
Definition setRadius (value : Z) (draft : Draft.t) : Draft.t :=
  {| Draft.labels := Draft.labels draft;
     Draft.drawing :=
       {| Drawing.mode := Drawing.mode (Draft.drawing draft);
          Drawing.active := Drawing.active (Draft.drawing draft);
          Drawing.flood := Drawing.flood (Draft.drawing draft);
          Drawing.threshold := Drawing.threshold (Draft.drawing draft);
          Drawing.radius := value |};
     Draft.dirty := Draft.dirty draft |}.

(** Modelled from the spec: [LabelPanel] is not among the sources. A panel
    whose [disabled] property is set takes no input: it never calls its
    [setLabels]. The result is the draft handed to [setDraft], if any. *)
Definition LabelPanel {A} (disabled : bool) (setLabels : A → Draft.t)
    (input : A) : option Draft.t :=
  if disabled then None else Some (setLabels input).

(** The label panel of the active level. *)
Definition labelPanel (props : Props.t) (draft : Draft.t)
    (current : LabelAssignment) : option Draft.t :=
  LabelPanel (ComputedState.disableLabelPanel (computedState props draft))
    (λ current, setLabels current draft) current.

(** The [disabled] property of the drawing mode panel,
    [!!draft.drawing.active || disabled]. *)
Definition drawingModeDisabled (props : Props.t) (draft : Draft.t) : bool :=
  present (Drawing.active (Draft.drawing draft)) || Props.disabled props.

(** The drawing mode panel, rendered when regions may be selected. *)
Definition drawingModePanel (props : Props.t) (draft : Draft.t)
    (mode : Mode.t) : option Draft.t :=
  if ComputedState.allowRegionSelection (computedState props draft)
  then LabelPanel (drawingModeDisabled props draft)
         (λ mode, setDrawingMode mode draft) mode
  else None.

(** Every call of [setDraft] in the component, as a command on the draft. *)
Inductive Command :=
| SetLabels (current : LabelAssignment)
| FinishRegion (save : bool)
| SetDrawingMode (mode : Mode.t)
| SetFlood (flood : bool)
| SetThreshold (value : Z)
| SetRadius (value : Z).

Definition transition (command : Command) (draft : Draft.t) : Outcome Draft.t :=
  match command with
  | SetLabels current => Ok (setLabels current draft)
  | FinishRegion save => finishRegion save draft
  | SetDrawingMode mode => Ok (setDrawingMode mode draft)
  | SetFlood flood => Ok (setFlood flood draft)
  | SetThreshold value => Ok (setThreshold value draft)
  | SetRadius value => Ok (setRadius value draft)
  end.

(** [computedState.editConfig], defined when [callbacks.onSaveConfig] is. *)
Definition editConfig (props : Props.t) (draft : Draft.t)
  : option (string → State.t) :=
  if Props.callbacks props Callback.onSaveConfig
  then Some (λ name,
         State.mk true
           (Some (findIndex (λ c, (LabelConfig.name c =? name)%string)
                    (ComputedState.activeConfig (computedState props draft)))))
  else None.

(** The [onSave] handed to the configuration editor. On success the result
    is the configuration passed to [callbacks.onSaveConfig] and the next
    component state. [computedState.config] holds a list for both levels, so
    [previous] is never undefined. *)
Definition onSave (props : Props.t) (draft : Draft.t) (state : State.t)
    (newLabelConfig : LabelConfig.t) (level : Level.t)
  : Outcome (Config.t * State.t) :=
  let config := ComputedState.config (computedState props draft) in
  if negb (present (State.index state)) &&
     present (List.find
       (λ c, (LabelConfig.name c =? LabelConfig.name newLabelConfig)%string)
       (default [] (Config.get level config)))
  then Throw
    "User attempted to add a config with the name of an existing config."
  else
    let previous := default [] (Config.get level config) in
    let index :=
      match State.index state with
      | None => Z.of_nat (length previous)
      | Some index => index
      end in
    Ok (Config.set level
          (slice 0 (Some index) previous ++ [newLabelConfig] ++
           slice (index + 1) None previous)
          config,
        State.mk false None).

(** A sequence of commands; it stops at the first that throws. *)
Fixpoint run (commands : list Command) (draft : Draft.t) : Outcome Draft.t :=
  match commands with
  | [] => Ok draft
  | command :: commands' =>
      match transition command draft with
      | Ok draft' => run commands' draft'
      | Throw message => Throw message
      end
  end.

(** The number of committed regions of all drawing modes. *)
Definition regionCount (labels : DraftLabels.t) : nat :=
  length (DraftLabels.boxes labels) + length (DraftLabels.polygons labels) +
  length (DraftLabels.masks labels).

(** The messages that the keyboard handler passes to [setToast]. *)
Definition knownToasts : list string :=
  ["Please save or reset your changes before advancing to next item.";
   "Please save or reset your changes before returning to previous item.";
   "Please fill in all required fields."].

(** The keys that the [switch] of the keyboard handler has a case for. *)
Definition shortcutKeys : list string :=
  ["A"; "a"; "z"; "ArrowRight"; "ArrowLeft"; "Enter"; "Backspace"; "Delete"].

(** Whether a command changes labels. *)
Definition changesLabels (command : Command) : bool :=
  match command with
  | SetLabels _ | FinishRegion _ => true
  | _ => false
  end.

(** ** Properties *)

(** The definitions of a level as the caller supplied them,
    [config?.[level] || []]. *)
Definition definitions (props : Props.t) (level : Level.t)
  : list LabelConfig.t :=
  default [] (Props.config props ≫= Config.get level).

(** A definition is satisfied by an assignment when it is not required or
    the assignment has a non-empty entry under its name. *)
Definition satisfied (assignment : LabelAssignment) (c : LabelConfig.t) : Prop :=
  LabelConfig.required c = true →
  ∃ values, assignment !! LabelConfig.name c = Some values ∧ values ≠ [].

(** A definition is answered in an assignment when it is not required or
    [(assignment[name] || []).length] is above 0 for its name. *)
Definition answered (assignment : LabelAssignment) (c : LabelConfig.t) : Prop :=
  LabelConfig.required c = true →
  0 < entryLength assignment (LabelConfig.name c).

(** The required definitions of a list have names under which a plain
    object inherits nothing that has a length above 0. *)
Definition ownNames (l : list LabelConfig.t) : Prop :=
  Forall (λ c, LabelConfig.required c = true →
               inheritedLength (LabelConfig.name c) = 0) l.

(** *** Required fields *)

Lemma forallb_fmap {A B} (f : B → bool) (g : A → B) (l : list A) :
  forallb f (g <$> l) = forallb (λ x, f (g x)) l.
Proof. induction l as [|x l IH]; csimpl; [done|]. by rewrite IH. Qed.

(** A test that reads only the name and the [required] flag of a definition
    holds of all of [shortcutify l] exactly when it holds of all of [l]. *)
Lemma forallb_shortcutify (f : string → bool → bool) (l : list LabelConfig.t) :
  forallb (λ c, f (LabelConfig.name c) (LabelConfig.required c)) (shortcutify l) =
  forallb (λ c, f (LabelConfig.name c) (LabelConfig.required c)) l.
Proof.
  set (fields := λ c, (LabelConfig.name c, LabelConfig.required c)).
  transitivity (forallb (λ p, f p.1 p.2) (fields <$> shortcutify l)).
  - symmetry. apply forallb_fmap.
  - unfold fields. rewrite shortcutify_fields. apply forallb_fmap.
Qed.

Lemma shortcutify_length (l : list LabelConfig.t) :
  length (shortcutify l) = length l.
Proof.
  rewrite <- (length_fmap (λ c, (LabelConfig.name c, LabelConfig.required c))).
  rewrite shortcutify_fields. apply length_fmap.
Qed.

Lemma shortcutify_names (l : list LabelConfig.t) :
  LabelConfig.name <$> shortcutify l = LabelConfig.name <$> l.
Proof.
  pose proof (shortcutify_fields l) as H.
  apply (f_equal (fmap fst)) in H. by rewrite <- !list_fmap_compose in H.
Qed.

(** The test that [every] applies to a definition decides [answered]. *)
Lemma filled_answered (assignment : LabelAssignment) (c : LabelConfig.t) :
  negb (LabelConfig.required c) ||
  (0 <? entryLength assignment (LabelConfig.name c)) = true ↔
  answered assignment c.
Proof.
  unfold answered. destruct (LabelConfig.required c); simpl.
  - rewrite Nat.ltb_lt. split; [by intros ? _|by intros H; apply H].
  - split; done.
Qed.

(** Under a name that inherits nothing with a length, to be answered is to
    have a non-empty entry. *)
Lemma answered_satisfied (assignment : LabelAssignment) (c : LabelConfig.t) :
  (LabelConfig.required c = true → inheritedLength (LabelConfig.name c) = 0) →
  answered assignment c ↔ satisfied assignment c.
Proof.
  unfold answered, satisfied, entryLength. intros Hown.
  split; intros H Hreq; specialize (H Hreq); specialize (Hown Hreq).
  - destruct (assignment !! LabelConfig.name c) as [[|v values]|];
      simpl in H; [lia| |lia]. by eexists.
  - destruct H as (values & -> & Hne). destruct values; [done|simpl; lia].
Qed.

Lemma every_answered (assignment : LabelAssignment) (l : list LabelConfig.t) :
  forallb
    (λ c, negb (LabelConfig.required c) ||
          (0 <? entryLength assignment (LabelConfig.name c)))
    (shortcutify l) = true ↔
  Forall (answered assignment) l.
Proof.
  rewrite (forallb_shortcutify
    (λ name required, negb required || (0 <? entryLength assignment name))).
  induction l as [|c l IH]; simpl.
  - split; [constructor|done].
  - rewrite andb_true_iff, Forall_cons, IH, filled_answered. done.
Qed.

Lemma Forall_answered_satisfied (assignment : LabelAssignment)
    (l : list LabelConfig.t) :
  ownNames l →
  Forall (answered assignment) l ↔ Forall (satisfied assignment) l.
Proof.
  unfold ownNames. induction 1 as [|c l Hc Hl IH]; [done|].
  by rewrite !Forall_cons, IH, (answered_satisfied _ _ Hc).
Qed.

Lemma activeConfig_definitions (props : Props.t) (draft : Draft.t) :
  ComputedState.activeConfig (computedState props draft) =
  shortcutify (definitions props (ComputedState.level (computedState props draft))).
Proof.
  unfold definitions. simpl.
  destruct (Drawing.active (Draft.drawing draft)); simpl;
    by destruct (Props.config props).
Qed.

(** The required fields are filled exactly when every required definition
    of the relevant level is answered in the relevant assignment. *)
Lemma requiredFieldsFilled_answered (props : Props.t) (draft : Draft.t) :
  requiredFieldsFilled props draft = true ↔
  Forall (answered (ComputedState.labels (computedState props draft)))
    (definitions props (ComputedState.level (computedState props draft))).
Proof.
  unfold requiredFieldsFilled. rewrite activeConfig_definitions. simpl.
  destruct (Drawing.active (Draft.drawing draft)); simpl; apply every_answered.
Qed.

(** C1. The code breaks the claim for a required definition that is named
    after a method of [Object.prototype]: with the one required image
    definition named "constructor" and no image labels at all, the required
    fields count as filled, though the definition has no entry. *)
Theorem requiredFieldsFilled_inherited_name :
  requiredFieldsFilled constructor_props clean_draft = true ∧
  LabelConfig.required constructor_field = true ∧
  DraftLabels.image (Draft.labels clean_draft) !!
    LabelConfig.name constructor_field = None ∧
  ¬ Forall (satisfied (DraftLabels.image (Draft.labels clean_draft)))
      (definitions constructor_props Level.image).
Proof.
  split; [|split; [done|split; [done|]]].
  - apply requiredFieldsFilled_answered, Forall_singleton. intros _.
    vm_compute. lia.
  - intros H.
    change (definitions constructor_props Level.image)
      with [constructor_field] in H.
    rewrite Forall_singleton in H.
    by destruct (H eq_refl) as (values & Hentry & _).
Qed.

(** X28. Provided no required definition of the relevant level is named
    after a member that a plain object inherits with a length above 0, the
    required fields are filled exactly when every required definition of
    that level has a non-empty entry in the relevant assignment: the
    definitions of the region level and the labels of the active region
    while a region is being drawn, the definitions of the image level and
    the image labels otherwise. *)
Theorem requiredFieldsFilled_own_names (props : Props.t) (draft : Draft.t) :
  ownNames (definitions props (ComputedState.level (computedState props draft))) →
  match Drawing.active (Draft.drawing draft) with
  | Some active =>
      requiredFieldsFilled props draft = true ↔
      Forall (satisfied (Region.labels (Active.region active)))
             (definitions props Level.regions)
  | None =>
      requiredFieldsFilled props draft = true ↔
      Forall (satisfied (DraftLabels.image (Draft.labels draft)))
             (definitions props Level.image)
  end.
Proof.
  intros Hown. pose proof (requiredFieldsFilled_answered props draft) as Hiff.
  rewrite (Forall_answered_satisfied _ _ Hown) in Hiff. revert Hiff. simpl.
  by destruct (Drawing.active (Draft.drawing draft)).
Qed.

(** *** The keyboard handler *)

Lemma draftAfter_app (props : Props.t) (draft : Draft.t) (l k : list Effect) :
  draftAfter props draft (l ++ k) = draftAfter props (draftAfter props draft l) k.
Proof. apply foldl_app. Qed.

Lemma draftAfter_forwarded (props : Props.t) (draft : Draft.t)
    (event : KeyboardEvent.t) :
  draftAfter props draft (forwarded props event) = draft.
Proof. unfold forwarded. by destruct (Props.callbacks props _). Qed.

Lemma not_click_forwarded (props : Props.t) (event : KeyboardEvent.t)
    (t : Target.t) :
  SimulateClick t ∉ forwarded props event.
Proof.
  unfold forwarded. destruct (Props.callbacks props _).
  - intros H. apply list_elem_of_singleton in H. discriminate.
  - apply not_elem_of_nil.
Qed.

(** C4. Enter with neither ctrl, shift nor alt held resolves to [save] when
    no region is active and to [finishRegion] when one is; the buttons behind
    these two targets call [callbacks.onSave] and [finishRegion(true)]. *)
Theorem enter_resolution (draft : Draft.t) (event : KeyboardEvent.t) :
  KeyboardEvent.key event = "Enter" →
  KeyboardEvent.ctrlKey event = false →
  KeyboardEvent.shiftKey event = false →
  KeyboardEvent.altKey event = false →
  resolveTarget draft event =
    Some ([], Some (match Drawing.active (Draft.drawing draft) with
                    | Some _ => Target.finishRegion
                    | None => Target.save
                    end)) ∧
  ∀ props b,
    (button props draft Target.finishRegion = Some b →
     Button.onClick b = DoFinishRegion true) ∧
    (button props draft Target.save = Some b →
     Button.onClick b = DoCall Callback.onSave).
Proof.
  intros Hkey Hctrl Hshift Halt. split.
  - unfold resolveTarget. rewrite Hkey, Hctrl, Hshift, Halt. simpl.
    by destruct (Drawing.active (Draft.drawing draft)).
  - intros props b. unfold button.
    destruct (Drawing.active (Draft.drawing draft)); split; intros [= <-]; done.
Qed.

(** X29. While [requiredFieldsFilled] is false, Enter (no ctrl, shift or
    alt) clicks no button: after the event was handed to the host, the
    handler only shows the toast "Please fill in all required fields.", and
    the draft afterwards is the draft before. The two buttons themselves
    are inert as well. *)
Theorem enter_rejected (props : Props.t) (draft : Draft.t)
    (event : KeyboardEvent.t) :
  KeyboardEvent.key event = "Enter" →
  KeyboardEvent.ctrlKey event = false →
  KeyboardEvent.shiftKey event = false →
  KeyboardEvent.altKey event = false →
  requiredFieldsFilled props draft = false →
  keyboardHandler props draft event =
    forwarded props event ++ [SetToast "Please fill in all required fields."] ∧
  (∀ t, SimulateClick t ∉ keyboardHandler props draft event) ∧
  draftAfter props draft (keyboardHandler props draft event) = draft ∧
  click props draft Target.finishRegion = NotDispatched ∧
  click props draft Target.save = NotDispatched.
Proof.
  intros Hkey Hctrl Hshift Halt Hreq.
  assert (keyboardHandler props draft event =
    forwarded props event ++ [SetToast "Please fill in all required fields."])
    as Heffects.
  { unfold keyboardHandler, forwarded, resolveTarget.
    rewrite Hkey, Hctrl, Hshift, Halt, Hreq. simpl.
    by destruct (Drawing.active (Draft.drawing draft)). }
  rewrite Heffects. repeat split.
  - intros t [H|H]%elem_of_app.
    + by apply not_click_forwarded in H.
    + apply list_elem_of_singleton in H. discriminate.
  - by rewrite draftAfter_app, draftAfter_forwarded.
  - unfold click, button. rewrite Hreq.
    by destruct (Drawing.active (Draft.drawing draft)).
  - unfold click, button. rewrite Hreq.
    destruct (Drawing.active (Draft.drawing draft)); [done|].
    simpl. by rewrite orb_true_r.
Qed.

(** C2. The code breaks the claim for a required definition that is named
    after a method of [Object.prototype]: with the one required image
    definition named "constructor" and no image labels, the required field
    has no entry, yet Enter raises no toast; it clicks the save button, and
    the button calls [callbacks.onSave]. *)
Theorem enter_saves_unanswered :
  ¬ Forall (satisfied (DraftLabels.image (Draft.labels clean_draft)))
      (definitions constructor_props Level.image) ∧
  keyboardHandler constructor_props clean_draft (press "Enter") =
    forwarded constructor_props (press "Enter") ++
    [SimulateClick Target.save; PreventDefault; StopPropagation] ∧
  click constructor_props clean_draft Target.save = Called Callback.onSave.
Proof.
  assert (requiredFieldsFilled constructor_props clean_draft = true) as Hfilled.
  { apply requiredFieldsFilled_answered, Forall_singleton. intros _.
    vm_compute. lia. }
  split; [|split].
  - intros H.
    change (definitions constructor_props Level.image)
      with [constructor_field] in H.
    rewrite Forall_singleton in H.
    by destruct (H eq_refl) as (values & Hentry & _).
  - unfold keyboardHandler, resolveTarget, button. simpl. by rewrite Hfilled.
  - unfold click, button. simpl. by rewrite Hfilled.
Qed.

(** C5. While the draft is dirty, the arrow keys that resolve to [next]
    (ArrowRight without ctrl or shift) and to [prev] (ArrowLeft), alt not
    held, click no button: the handler shows a toast that asks to save or
    reset first, and the draft stays as it is. *)
Theorem navigation_blocked_when_dirty (props : Props.t) (draft : Draft.t)
    (event : KeyboardEvent.t) :
  Draft.dirty draft = true →
  KeyboardEvent.altKey event = false →
  (KeyboardEvent.key event = "ArrowRight" ∧
   KeyboardEvent.ctrlKey event = false ∧
   KeyboardEvent.shiftKey event = false) ∨
  KeyboardEvent.key event = "ArrowLeft" →
  keyboardHandler props draft event =
    forwarded props event ++
    [SetToast
       (if (KeyboardEvent.key event =? "ArrowRight")%string
        then "Please save or reset your changes before advancing to next item."
        else "Please save or reset your changes before returning to previous item.")] ∧
  (∀ t, SimulateClick t ∉ keyboardHandler props draft event) ∧
  draftAfter props draft (keyboardHandler props draft event) = draft.
Proof.
  intros Hdirty Halt Hkey.
  match goal with |- ?lhs = ?rhs ∧ _ => assert (lhs = rhs) as Heffects end.
  { unfold keyboardHandler, forwarded, resolveTarget. rewrite Hdirty, Halt.
    destruct Hkey as [(-> & -> & ->)| ->]; done. }
  rewrite Heffects. repeat split.
  - intros t [H|H]%elem_of_app.
    + by apply not_click_forwarded in H.
    + apply list_elem_of_singleton in H. discriminate.
  - by rewrite draftAfter_app, draftAfter_forwarded.
Qed.

(** *** Finishing a region *)

(** C9. Finishing a region while none is active throws, whether called to
    commit or to clear; no draft is handed to [setDraft]. *)
Theorem finishRegion_idle_throws (save : bool) (draft : Draft.t) :
  Drawing.active (Draft.drawing draft) = None →
  finishRegion save draft =
    Throw "Called to finish region but no region is selected." ∧
  ∀ draft', finishRegion save draft ≠ Ok draft'.
Proof.
  intros Hidle. unfold finishRegion. rewrite Hidle. done.
Qed.

(** C3, as amended. Finishing a region while one is active clears the active
    slot and sets [dirty]. To commit puts the active region, read-only or
    not, at the head of the list of the current drawing mode; to clear
    leaves that list as it was. The other lists, the image labels and the
    rest of the drawing state are unchanged either way. *)
Theorem finishRegion_editing (save : bool) (draft : Draft.t) (active : Active.t) :
  Drawing.active (Draft.drawing draft) = Some active →
  ∃ draft',
    finishRegion save draft = Ok draft' ∧
    Drawing.active (Draft.drawing draft') = None ∧
    Draft.dirty draft' = true ∧
    DraftLabels.get (Drawing.mode (Draft.drawing draft)) (Draft.labels draft') =
      (if save
       then Active.region active ::
            DraftLabels.get (Drawing.mode (Draft.drawing draft)) (Draft.labels draft)
       else DraftLabels.get (Drawing.mode (Draft.drawing draft)) (Draft.labels draft)) ∧
    (∀ mode, mode ≠ Drawing.mode (Draft.drawing draft) →
       DraftLabels.get mode (Draft.labels draft') =
       DraftLabels.get mode (Draft.labels draft)) ∧
    DraftLabels.image (Draft.labels draft') = DraftLabels.image (Draft.labels draft) ∧
    Drawing.mode (Draft.drawing draft') = Drawing.mode (Draft.drawing draft) ∧
    Drawing.flood (Draft.drawing draft') = Drawing.flood (Draft.drawing draft) ∧
    Drawing.threshold (Draft.drawing draft') = Drawing.threshold (Draft.drawing draft) ∧
    Drawing.radius (Draft.drawing draft') = Drawing.radius (Draft.drawing draft).
Proof.
  intros Hactive. unfold finishRegion. rewrite Hactive.
  eexists. split; [reflexivity|]. simpl.
  destruct (Drawing.mode (Draft.drawing draft)), save; simpl;
    repeat split; try done; by intros [].
Qed.

(** *** The dirty flag *)

(** C6, as amended. [setLabels] and [finishRegion] leave the draft dirty. A
    switch of the drawing mode and a change of the flood flag, the threshold
    or the radius leave [dirty] and the labels as they were. No command
    clears [dirty]. *)
Theorem transition_dirty (command : Command) (draft draft' : Draft.t) :
  transition command draft = Ok draft' →
  match command with
  | SetLabels _ | FinishRegion _ => Draft.dirty draft' = true
  | SetDrawingMode _ | SetFlood _ | SetThreshold _ | SetRadius _ =>
      Draft.dirty draft' = Draft.dirty draft ∧
      Draft.labels draft' = Draft.labels draft
  end ∧
  (Draft.dirty draft = true → Draft.dirty draft' = true).
Proof.
  destruct command; simpl; try (intros [= <-]; by simpl).
  unfold finishRegion. destruct (Drawing.active (Draft.drawing draft)); [|done].
  intros [= <-]. by simpl.
Qed.

(** *** The drawing mode *)

(** C7. While a region is active the drawing mode panel is disabled and
    hands no draft to [setDraft], so the mode stays as it is. When the panel
    does hand one over, no region is active and the new draft is the old one
    with only [drawing.mode] replaced: the flood flag, the threshold and the
    radius are the same, and so are the labels and [dirty]. *)
Theorem drawingModePanel_spec (props : Props.t) (draft : Draft.t) (mode : Mode.t) :
  (∀ active, Drawing.active (Draft.drawing draft) = Some active →
     drawingModeDisabled props draft = true ∧
     drawingModePanel props draft mode = None) ∧
  (∀ draft', drawingModePanel props draft mode = Some draft' →
     Drawing.active (Draft.drawing draft) = None ∧
     Drawing.mode (Draft.drawing draft') = mode ∧
     Drawing.active (Draft.drawing draft') = None ∧
     Drawing.flood (Draft.drawing draft') = Drawing.flood (Draft.drawing draft) ∧
     Drawing.threshold (Draft.drawing draft') =
       Drawing.threshold (Draft.drawing draft) ∧
     Drawing.radius (Draft.drawing draft') = Drawing.radius (Draft.drawing draft) ∧
     Draft.labels draft' = Draft.labels draft ∧
     Draft.dirty draft' = Draft.dirty draft).
Proof.
  unfold drawingModePanel, drawingModeDisabled, LabelPanel. split.
  - intros active ->. simpl. by destruct (_ && _).
  - intros draft'. destruct (ComputedState.allowRegionSelection _); [|done].
    destruct (Drawing.active (Draft.drawing draft)) eqn:Hactive; [done|].
    simpl. destruct (Props.disabled props); [done|].
    intros [= <-]. simpl. by rewrite Hactive.
Qed.

(** *** The configuration editor *)

Lemma slice_take {A} (i : Z) (l : list A) :
  (0 ≤ i)%Z → slice 0 (Some i) l = take (Z.to_nat i) l.
Proof.
  intros Hi. unfold slice. simpl.
  destruct (Z.ltb_spec i 0) as [?|_]; [lia|].
  rewrite (Z.min_l 0) by lia.
  rewrite Z.sub_0_r. change (Z.to_nat 0) with 0%nat. rewrite drop_0.
  destruct (Z.min_spec i (Z.of_nat (length l))) as [[? ->]|[? ->]]; [done|].
  rewrite Nat2Z.id, firstn_all. symmetry. apply take_ge. lia.
Qed.

Lemma slice_drop {A} (i : Z) (l : list A) :
  (0 ≤ i)%Z → slice i None l = drop (Z.to_nat i) l.
Proof.
  intros Hi. unfold slice.
  destruct (Z.ltb_spec i 0) as [?|_]; [lia|].
  destruct (Z.min_spec i (Z.of_nat (length l))) as [[? ->]|[? ->]].
  - apply take_ge. rewrite length_drop. lia.
  - rewrite Nat2Z.id, Z.sub_diag. simpl. rewrite !drop_ge; [done|lia|lia].
Qed.
(** [previous.slice(0, i).concat([x]).concat(previous.slice(i + 1))] replaces
    the element at a position of the array, and appends at its length. *)
Lemma splice_insert {A} (i : Z) (x : A) (l : list A) :
  (0 ≤ i < Z.of_nat (length l))%Z →
  slice 0 (Some i) l ++ x :: slice (i + 1) None l = <[Z.to_nat i := x]> l.
Proof.
  intros Hi. rewrite slice_take, slice_drop by lia.
  rewrite insert_take_drop by lia.
  by replace (Z.to_nat (i + 1)) with (S (Z.to_nat i)) by lia.
Qed.

Lemma splice_append {A} (x : A) (l : list A) :
  slice 0 (Some (Z.of_nat (length l))) l ++
  x :: slice (Z.of_nat (length l) + 1) None l = l ++ [x].
Proof.
  rewrite slice_take, slice_drop by lia.
  rewrite Nat2Z.id, firstn_all, drop_ge by lia. done.
Qed.

Lemma find_name_present (name : string) (l : list LabelConfig.t) :
  present (List.find (λ c, (LabelConfig.name c =? name)%string) l) = true ↔
  name ∈ LabelConfig.name <$> l.
Proof.
  induction l as [|c l IH]; csimpl.
  - split; [done|]. by intros ?%elem_of_nil.
  - rewrite elem_of_cons. destruct (String.eqb_spec (LabelConfig.name c) name).
    + split; [by left|done].
    + rewrite IH. split; [by right|]. by intros [?|?].
Qed.

Lemma findIndex_from_found {A} (f : A → bool) (i : Z) (l : list A) :
  (∃ x, x ∈ l ∧ f x = true) →
  (i ≤ findIndex_from f i l < i + Z.of_nat (length l))%Z ∧
  ∃ x, l !! Z.to_nat (findIndex_from f i l - i) = Some x ∧ f x = true.
Proof.
  revert i. induction l as [|y l IH]; intros i (x & Hx & Hfx).
  - by apply elem_of_nil in Hx.
  - simpl. destruct (f y) eqn:Hfy.
    + split; [lia|]. exists y. by rewrite Z.sub_diag.
    + apply elem_of_cons in Hx as [->|Hx]; [congruence|].
      destruct (IH (i + 1)%Z) as [Hrange (z & Hz & Hfz)]; [by exists x|].
      split; [lia|]. exists z. split; [|done].
      replace (Z.to_nat (findIndex_from f (i + 1) l - i))
        with (S (Z.to_nat (findIndex_from f (i + 1) l - (i + 1)))) by lia.
      done.
Qed.

(** The index that [editConfig] stores for the name of an active definition
    is the position of a definition with that name. *)
Lemma editConfig_index (props : Props.t) (draft : Draft.t)
    (edit : string → State.t) (name : string) :
  editConfig props draft = Some edit →
  name ∈ LabelConfig.name <$>
    ComputedState.activeConfig (computedState props draft) →
  ∃ i c,
    edit name = State.mk true (Some i) ∧
    (0 ≤ i < Z.of_nat (length
       (ComputedState.activeConfig (computedState props draft))))%Z ∧
    ComputedState.activeConfig (computedState props draft) !! Z.to_nat i =
      Some c ∧
    LabelConfig.name c = name.
Proof.
  unfold editConfig. destruct (Props.callbacks props _); [|done].
  intros [= <-] (c & -> & Hc)%list_elem_of_fmap.
  destruct (findIndex_from_found
    (λ c', (LabelConfig.name c' =? LabelConfig.name c)%string) 0
    (ComputedState.activeConfig (computedState props draft)))
    as [Hrange (c' & Hlookup & Hname)].
  { exists c. split; [done|]. apply String.eqb_refl. }
  eexists _, c'. split; [reflexivity|]. unfold findIndex.
  rewrite Z.sub_0_r in Hlookup. rewrite Z.add_0_l in Hrange.
  split; [exact Hrange|]. split; [exact Hlookup|]. by apply String.eqb_eq.
Qed.

(** C8. Saving without an index (adding) throws when a definition of the
    same level already has the name, and then no configuration is passed on;
    otherwise, whatever the names at the other level, the new definition is
    appended to the list of its level. Saving with the index of a definition
    replaces that definition in place, the others keep their positions, and
    no name is compared. The list of the other level is passed on as it is. *)
Theorem onSave_spec (props : Props.t) (draft : Draft.t) (state : State.t)
    (newLabelConfig : LabelConfig.t) (level : Level.t) :
  let config := ComputedState.config (computedState props draft) in
  let previous := shortcutify (definitions props level) in
  (State.index state = None →
   LabelConfig.name newLabelConfig ∈ LabelConfig.name <$> definitions props level →
   onSave props draft state newLabelConfig level =
     Throw "User attempted to add a config with the name of an existing config.") ∧
  (State.index state = None →
   LabelConfig.name newLabelConfig ∉ LabelConfig.name <$> definitions props level →
   onSave props draft state newLabelConfig level =
     Ok (Config.set level (previous ++ [newLabelConfig]) config,
         State.mk false None)) ∧
  (∀ i, State.index state = Some i →
     (0 ≤ i < Z.of_nat (length previous))%Z →
     onSave props draft state newLabelConfig level =
       Ok (Config.set level (<[Z.to_nat i := newLabelConfig]> previous) config,
           State.mk false None)) ∧
  Config.get level config = Some previous ∧
  (∀ other, other ≠ level →
     Config.get other (Config.set level previous config) =
     Some (shortcutify (definitions props other))).
Proof.
  intros config previous.
  assert (Config.get level config = Some previous) as Hprevious.
  { unfold config, previous, definitions.
    destruct level; simpl; by destruct (Props.config props). }
  assert (∀ other, Config.get other config =
            Some (shortcutify (definitions props other))) as Hother.
  { intros other. unfold config, definitions.
    destruct other; simpl; by destruct (Props.config props). }
  repeat split.
  - intros Hindex Hdup. unfold onSave. fold config.
    rewrite Hindex, Hprevious. simpl.
    rewrite <- shortcutify_names in Hdup. fold previous in Hdup.
    apply find_name_present in Hdup. by rewrite Hdup.
  - intros Hindex Hfresh. unfold onSave. fold config.
    rewrite Hindex, Hprevious. simpl.
    rewrite <- shortcutify_names in Hfresh. fold previous in Hfresh.
    rewrite <- find_name_present in Hfresh.
    apply not_true_is_false in Hfresh. rewrite Hfresh.
    by rewrite splice_append.
  - intros i Hindex Hi. unfold onSave. fold config.
    rewrite Hindex, Hprevious. simpl. by rewrite splice_insert.
  - done.
  - intros other Hne. rewrite <- Hother.
    destruct other, level; done.
Qed.

(** *** No definitions *)

(** A level has no definitions when the configuration is absent, or its
    list for the level is absent or empty. *)
Lemma definitions_nil (props : Props.t) (level : Level.t) :
  definitions props level = [] ↔
  Props.config props = None ∨
  ∃ config, Props.config props = Some config ∧
    (Config.get level config = None ∨ Config.get level config = Some []).
Proof.
  unfold definitions. destruct (Props.config props) as [config|]; simpl.
  - destruct (Config.get level config) as [l|] eqn:Hget; simpl.
    + split.
      * intros ->. right. eexists. split; [done|by right].
      * intros [?|(? & [= <-] & [?|?])]; congruence.
    + split; [|done]. intros _. right. eexists. split; [done|by left].
  - split; [by left|done].
Qed.

(** The toasts raised inside the [switch] are the two about navigation. *)
Lemma resolveTarget_toasts (draft : Draft.t) (event : KeyboardEvent.t)
    (toasts : list Effect) (target : option Target.t) (e : Effect) :
  resolveTarget draft event = Some (toasts, target) →
  e ∈ toasts →
  e = SetToast
    "Please save or reset your changes before advancing to next item." ∨
  e = SetToast
    "Please save or reset your changes before returning to previous item.".
Proof.
  unfold resolveTarget. intros Hresolve He.
  repeat case_match; simplify_eq;
    first [ by apply elem_of_nil in He
          | apply list_elem_of_singleton in He; auto ].
Qed.

(** Once the required fields are filled, no key raises the toast about
    required fields. *)
Lemma filled_no_rejection (props : Props.t) (draft : Draft.t)
    (event : KeyboardEvent.t) :
  requiredFieldsFilled props draft = true →
  SetToast "Please fill in all required fields." ∉
    keyboardHandler props draft event.
Proof.
  intros Hfilled. unfold keyboardHandler. rewrite Hfilled.
  intros [H|H]%elem_of_app.
  - unfold forwarded in H. destruct (Props.callbacks props _).
    + apply list_elem_of_singleton in H. discriminate.
    + by apply elem_of_nil in H.
  - destruct (resolveTarget draft event) as [[toasts target]|] eqn:Hresolve;
      [|by apply elem_of_nil in H].
    rewrite andb_false_r in H. apply elem_of_app in H as [H|H].
    + by destruct (resolveTarget_toasts _ _ _ _ _ Hresolve H).
    + destruct target as [t|]; [|by apply elem_of_nil in H].
      destruct (present (button props draft t)); [|by apply elem_of_nil in H].
      repeat (apply elem_of_cons in H as [H|H]; [discriminate|]).
      by apply elem_of_nil in H.
Qed.

(** C10. When the relevant level has no definitions, because the
    configuration or its list for the level is absent or empty, the required
    fields count as filled for every draft: no key raises the toast about
    required fields, the finish button is enabled, and the save button is
    disabled only for want of [callbacks.onSave] or by [disabled]. *)
Theorem no_definitions_never_blocked (props : Props.t) (draft : Draft.t) :
  definitions props (ComputedState.level (computedState props draft)) = [] →
  requiredFieldsFilled props draft = true ∧
  (∀ event,
     SetToast "Please fill in all required fields." ∉
       keyboardHandler props draft event) ∧
  (∀ b, button props draft Target.finishRegion = Some b →
     Button.disabled b = false) ∧
  (∀ b, button props draft Target.save = Some b →
     Button.disabled b =
       negb (Props.callbacks props Callback.onSave) || Props.disabled props).
Proof.
  intros Hnone.
  assert (requiredFieldsFilled props draft = true) as Hfilled.
  { unfold requiredFieldsFilled. rewrite activeConfig_definitions, Hnone.
    pose proof (shortcutify_length []) as Hlength.
    destruct (shortcutify []); [|done].
    by destruct (Drawing.active (Draft.drawing draft)). }
  repeat split.
  - done.
  - intros event. by apply filled_no_rejection.
  - intros b. unfold button. rewrite Hfilled.
    destruct (Drawing.active (Draft.drawing draft)); [|done].
    by intros [= <-].
  - intros b. unfold button. rewrite Hfilled.
    destruct (Drawing.active (Draft.drawing draft)); [done|].
    intros [= <-]. simpl. by rewrite orb_false_r.
Qed.

(** *** More on the keyboard handler *)

Lemma elem_of_forwarded (props : Props.t) (event : KeyboardEvent.t) (e : Effect) :
  e ∈ forwarded props event → e = CallOnKeyboardEvent event.
Proof.
  unfold forwarded. destruct (Props.callbacks props _).
  - by intros ->%list_elem_of_singleton.
  - by intros ?%elem_of_nil.
Qed.

(** A toast raised inside the [switch] comes alone and clears the target. *)
Lemma resolveTarget_shape (draft : Draft.t) (event : KeyboardEvent.t)
    (toasts : list Effect) (target : option Target.t) :
  resolveTarget draft event = Some (toasts, target) →
  toasts = [] ∨
  target = None ∧ ∃ m, toasts = [SetToast m] ∧ m ∈ knownToasts.
Proof.
  unfold resolveTarget, knownToasts. intros Hresolve.
  repeat case_match; simplify_eq;
    first [ by left
          | right; split; [done|]; eexists; split; [done|];
            apply list_elem_of_In; simpl; tauto ].
Qed.

Lemma resolveTarget_navigation (draft : Draft.t) (event : KeyboardEvent.t)
    (toasts : list Effect) (t : Target.t) :
  resolveTarget draft event = Some (toasts, Some t) →
  t = Target.next ∨ t = Target.prev →
  Draft.dirty draft = false.
Proof.
  unfold resolveTarget. intros Hresolve Ht.
  destruct (Draft.dirty draft); [|done]. exfalso.
  repeat case_match; simplify_eq; by destruct Ht.
Qed.

(** The buttons of the region menu are rendered while a region is active,
    the others while none is. *)
Lemma button_level (props : Props.t) (draft : Draft.t) (t : Target.t) :
  is_Some (button props draft t) →
  (present (Drawing.active (Draft.drawing draft)) = true ↔
   t ∈ [Target.finishRegion; Target.clearRegion; Target.undoRegion]).
Proof.
  unfold button.
  destruct (Drawing.active (Draft.drawing draft)), t; simpl; intros Hb;
    try (by apply is_Some_None in Hb); split; intros H; try done;
    first [ apply list_elem_of_In; simpl; tauto
          | apply list_elem_of_In in H; simpl in H; intuition discriminate ].
Qed.

(** After the event was handed to the host, the handler does nothing, or
    raises one toast, or clicks one rendered button and stops the event. *)
Lemma keyboardHandler_tail (props : Props.t) (draft : Draft.t)
    (event : KeyboardEvent.t) :
  ∃ tail,
    keyboardHandler props draft event = forwarded props event ++ tail ∧
    (tail = [] ∨
     (∃ m, tail = [SetToast m] ∧ m ∈ knownToasts) ∨
     (∃ t toasts,
        tail = [SimulateClick t; PreventDefault; StopPropagation] ∧
        resolveTarget draft event = Some (toasts, Some t) ∧
        is_Some (button props draft t) ∧
        (commitClass (Some t) = true →
         requiredFieldsFilled props draft = true))).
Proof.
  unfold keyboardHandler.
  destruct (resolveTarget draft event) as [[toasts target]|] eqn:Hresolve;
    [|exists []; split; [done|by left]].
  eexists. split; [reflexivity|].
  destruct (resolveTarget_shape _ _ _ _ Hresolve)
    as [->|(-> & m & -> & Hm)]; simpl.
  - destruct (commitClass target) eqn:Hcommit; simpl.
    + destruct (requiredFieldsFilled props draft) eqn:Hfilled; simpl.
      * destruct target as [t|]; [|done].
        destruct (button props draft t) as [b|] eqn:Hbutton; simpl;
          [|by left].
        right. right. exists t, []. by rewrite Hbutton.
      * right. left. eexists. split; [done|].
        apply list_elem_of_In. simpl. tauto.
    + destruct target as [t|]; [|by left].
      destruct (button props draft t) as [b|] eqn:Hbutton; simpl; [|by left].
      right. right. exists t, []. rewrite Hbutton.
      split; [done|]. split; [done|]. split; [done|].
      intros Hc. simpl in Hc, Hcommit. congruence.
  - right. left. eauto.
Qed.

(** X1. A key event has at most one reaction: after the event was handed
    to the host, the handler makes no further call, or raises exactly one
    toast, with one of its three messages, and nothing else, or simulates
    exactly one click, on a rendered button, and then calls
    [preventDefault] and [stopPropagation] once each. *)
Theorem keyboardHandler_one_reaction (props : Props.t) (draft : Draft.t)
    (event : KeyboardEvent.t) :
  keyboardHandler props draft event = forwarded props event ∨
  (∃ m, m ∈ knownToasts ∧
     keyboardHandler props draft event =
       forwarded props event ++ [SetToast m]) ∨
  (∃ t, is_Some (button props draft t) ∧
     keyboardHandler props draft event =
       forwarded props event ++
       [SimulateClick t; PreventDefault; StopPropagation]).
Proof.
  destruct (keyboardHandler_tail props draft event) as (tail & -> & Htail).
  destruct Htail as [->|[(m & -> & Hm)|(t & toasts & -> & _ & Hb & _)]].
  - left. apply app_nil_r.
  - right. left. by exists m.
  - right. right. by exists t.
Qed.

Lemma draftAfter_click (props : Props.t) (draft : Draft.t)
    (event : KeyboardEvent.t) (t : Target.t) :
  draftAfter props draft
    (forwarded props event ++
     [SimulateClick t; PreventDefault; StopPropagation]) =
  match click props draft t with DraftSet draft' => draft' | _ => draft end.
Proof. by rewrite draftAfter_app, draftAfter_forwarded. Qed.

(** X2. The handler leaves alone, apart from handing it to the host, every
    event with alt held, every key that is not a shortcut, and ArrowRight,
    Enter, Backspace and Delete with ctrl or shift held: no toast, no click,
    and the default action of the key is not prevented. *)
Theorem keyboardHandler_ignores (props : Props.t) (draft : Draft.t)
    (event : KeyboardEvent.t) :
  KeyboardEvent.altKey event = true ∨
  KeyboardEvent.key event ∉ shortcutKeys ∨
  ((KeyboardEvent.ctrlKey event = true ∨ KeyboardEvent.shiftKey event = true) ∧
   KeyboardEvent.key event ∈ ["ArrowRight"; "Enter"; "Backspace"; "Delete"]) →
  keyboardHandler props draft event = forwarded props event.
Proof.
  intros Hcase.
  enough (resolveTarget draft event = None ∨
          resolveTarget draft event = Some ([], None)) as [Hr|Hr].
  { unfold keyboardHandler. rewrite Hr. apply app_nil_r. }
  { unfold keyboardHandler. rewrite Hr. apply app_nil_r. }
  unfold resolveTarget.
  destruct Hcase as [Halt|[Hkey|[Hmod Hkey]]].
  - rewrite Halt. by left.
  - left. destruct (KeyboardEvent.altKey event); [done|].
    assert (∀ k, k ∈ shortcutKeys → (KeyboardEvent.key event =? k)%string = false)
      as Hne.
    { intros k Hk. apply String.eqb_neq. intros Heq. apply Hkey.
      by rewrite Heq. }
    rewrite !Hne; [done|..]; apply list_elem_of_In; simpl; tauto.
  - destruct (KeyboardEvent.altKey event); [by left|]. right.
    apply list_elem_of_In in Hkey. simpl in Hkey.
    destruct Hkey as [<-|[<-|[<-|[<-|[]]]]]; simpl;
      destruct Hmod as [-> | ->]; simpl; rewrite ?orb_true_r; simpl;
      by rewrite ?andb_false_r.
Qed.

(** X3. A click is simulated only on a button that is rendered; on the save
    or finish button only while the required fields are filled; on the
    next or previous button only while the draft is clean; and on a button
    of the region menu exactly while a region is active. *)
Theorem keyboardHandler_click_guarded (props : Props.t) (draft : Draft.t)
    (event : KeyboardEvent.t) (t : Target.t) :
  SimulateClick t ∈ keyboardHandler props draft event →
  is_Some (button props draft t) ∧
  (t = Target.save ∨ t = Target.finishRegion →
   requiredFieldsFilled props draft = true) ∧
  (t = Target.next ∨ t = Target.prev → Draft.dirty draft = false) ∧
  (present (Drawing.active (Draft.drawing draft)) = true ↔
   t ∈ [Target.finishRegion; Target.clearRegion; Target.undoRegion]).
Proof.
  destruct (keyboardHandler_tail props draft event) as (tail & -> & Htail).
  intros [H|H]%elem_of_app.
  { by apply (elem_of_forwarded props) in H. }
  destruct Htail as [->|[(m & -> & _)|(t0 & toasts & -> & Hr & Hb & Hc)]].
  - by apply elem_of_nil in H.
  - apply list_elem_of_singleton in H. discriminate.
  - apply elem_of_cons in H as [[= ->]|H].
    + split; [done|]. split; [|split].
      * intros Ht. apply Hc. by destruct Ht as [-> | ->].
      * by apply (resolveTarget_navigation draft event toasts).
      * by apply (button_level props).
    + apply elem_of_cons in H as [H|H]; [discriminate|].
      apply list_elem_of_singleton in H. discriminate.
Qed.

(** X4. Once the required fields are filled, Enter (no ctrl, shift or alt)
    is accepted. While a region is active it clicks the finish button, and
    the draft afterwards is the one [finishRegion(true)] sets; otherwise it
    clicks the save button, which calls [callbacks.onSave] unless that is
    absent or the menu is disabled, and the draft stays as it is. *)
Theorem enter_accepted (props : Props.t) (draft : Draft.t)
    (event : KeyboardEvent.t) :
  KeyboardEvent.key event = "Enter" →
  KeyboardEvent.ctrlKey event = false →
  KeyboardEvent.shiftKey event = false →
  KeyboardEvent.altKey event = false →
  requiredFieldsFilled props draft = true →
  match Drawing.active (Draft.drawing draft) with
  | Some _ =>
      keyboardHandler props draft event =
        forwarded props event ++
        [SimulateClick Target.finishRegion; PreventDefault; StopPropagation] ∧
      ∃ draft',
        finishRegion true draft = Ok draft' ∧
        draftAfter props draft (keyboardHandler props draft event) = draft'
  | None =>
      keyboardHandler props draft event =
        forwarded props event ++
        [SimulateClick Target.save; PreventDefault; StopPropagation] ∧
      click props draft Target.save =
        (if Props.callbacks props Callback.onSave && negb (Props.disabled props)
         then Called Callback.onSave else NotDispatched) ∧
      draftAfter props draft (keyboardHandler props draft event) = draft
  end.
Proof.
  intros Hkey Hctrl Hshift Halt Hfilled.
  destruct (Drawing.active (Draft.drawing draft)) as [active|] eqn:Hactive.
  - assert (keyboardHandler props draft event =
      forwarded props event ++
      [SimulateClick Target.finishRegion; PreventDefault; StopPropagation])
      as Heffects.
    { unfold keyboardHandler, resolveTarget, button.
      by rewrite Hkey, Hctrl, Hshift, Halt, Hfilled, Hactive. }
    split; [done|]. rewrite Heffects, draftAfter_click.
    unfold click, button, finishRegion. rewrite Hactive, Hfilled. simpl.
    by eexists.
  - assert (keyboardHandler props draft event =
      forwarded props event ++
      [SimulateClick Target.save; PreventDefault; StopPropagation])
      as Heffects.
    { unfold keyboardHandler, resolveTarget, button.
      by rewrite Hkey, Hctrl, Hshift, Halt, Hfilled, Hactive. }
    split; [done|]. rewrite Heffects, draftAfter_click.
    unfold click, button. rewrite Hactive, Hfilled. simpl.
    destruct (Props.callbacks props Callback.onSave), (Props.disabled props);
      done.
Qed.

(** X5. While a region is active, Backspace and Delete (no ctrl, shift or
    alt) click the delete button of the region menu and stop the event. The
    button is disabled for a read-only region, whose draft stays as it is;
    otherwise the draft afterwards is the one [finishRegion(false)] sets. *)
Theorem backspace_clears_region (props : Props.t) (draft : Draft.t)
    (event : KeyboardEvent.t) (active : Active.t) :
  KeyboardEvent.key event = "Backspace" ∨ KeyboardEvent.key event = "Delete" →
  KeyboardEvent.ctrlKey event = false →
  KeyboardEvent.shiftKey event = false →
  KeyboardEvent.altKey event = false →
  Drawing.active (Draft.drawing draft) = Some active →
  keyboardHandler props draft event =
    forwarded props event ++
    [SimulateClick Target.clearRegion; PreventDefault; StopPropagation] ∧
  ∃ draft',
    finishRegion false draft = Ok draft' ∧
    draftAfter props draft (keyboardHandler props draft event) =
      if Region.readonly (Active.region active) then draft else draft'.
Proof.
  intros Hkey Hctrl Hshift Halt Hactive.
  assert (keyboardHandler props draft event =
    forwarded props event ++
    [SimulateClick Target.clearRegion; PreventDefault; StopPropagation])
    as Heffects.
  { unfold keyboardHandler, resolveTarget, button.
    rewrite Hctrl, Hshift, Halt, Hactive.
    by destruct Hkey as [-> | ->]. }
  split; [done|]. rewrite Heffects, draftAfter_click.
  unfold click, button, finishRegion. rewrite Hactive. simpl.
  eexists. split; [done|].
  by destruct (Region.readonly (Active.region active)).
Qed.

(** X6. The key z (alt not held) undoes exactly when one of meta and ctrl is
    held, whatever shift is: it then clicks the undo button of the menu on
    display, if [callbacks.onUndo] is there; the button calls it unless the
    menu is disabled. With both or neither held nothing happens. *)
Theorem undo_shortcut (props : Props.t) (draft : Draft.t)
    (event : KeyboardEvent.t) :
  KeyboardEvent.key event = "z" →
  KeyboardEvent.altKey event = false →
  let target :=
    if present (Drawing.active (Draft.drawing draft))
    then Target.undoRegion else Target.undo in
  keyboardHandler props draft event =
    forwarded props event ++
    (if negb (Bool.eqb (KeyboardEvent.metaKey event) (KeyboardEvent.ctrlKey event))
        && Props.callbacks props Callback.onUndo
     then [SimulateClick target; PreventDefault; StopPropagation] else []) ∧
  click props draft target =
    (if Props.callbacks props Callback.onUndo && negb (Props.disabled props)
     then Called Callback.onUndo else NotDispatched).
Proof.
  intros Hkey Halt target. unfold target. split.
  - unfold keyboardHandler, resolveTarget, button. rewrite Hkey, Halt. simpl.
    destruct (Bool.eqb _ _); simpl; [done|].
    destruct (Drawing.active (Draft.drawing draft)); simpl;
      by destruct (Props.callbacks props Callback.onUndo).
  - unfold click, button.
    destruct (Drawing.active (Draft.drawing draft)); simpl;
      destruct (Props.callbacks props Callback.onUndo) eqn:Hundo,
               (Props.disabled props); simpl; by rewrite ?Hundo.
Qed.

(** X7. On a clean draft with no active region, ArrowLeft (whatever ctrl,
    shift and meta are) and ArrowRight (without ctrl and shift), alt not
    held, click the previous and the next button when the navigation is on
    display; the button calls its callback when that is present. *)
Theorem arrows_navigate (props : Props.t) (draft : Draft.t)
    (event : KeyboardEvent.t) :
  KeyboardEvent.altKey event = false →
  Draft.dirty draft = false →
  Drawing.active (Draft.drawing draft) = None →
  KeyboardEvent.key event = "ArrowLeft" ∨
  (KeyboardEvent.key event = "ArrowRight" ∧
   KeyboardEvent.ctrlKey event = false ∧
   KeyboardEvent.shiftKey event = false) →
  let left := (KeyboardEvent.key event =? "ArrowLeft")%string in
  let target := if left then Target.prev else Target.next in
  let callback := if left then Callback.onPrev else Callback.onNext in
  keyboardHandler props draft event =
    forwarded props event ++
    (if Props.callbacks props Callback.onPrev ||
        Props.callbacks props Callback.onNext || Props.showNavigation props
     then [SimulateClick target; PreventDefault; StopPropagation] else []) ∧
  click props draft target =
    (if Props.callbacks props callback then Called callback else NotDispatched).
Proof.
  intros Halt Hclean Hidle Hkey. simpl.
  unfold keyboardHandler, resolveTarget, click, button.
  rewrite Halt, Hclean, Hidle.
  destruct Hkey as [-> | (-> & -> & ->)]; simpl;
    destruct (Props.callbacks props Callback.onPrev) eqn:Hprev,
             (Props.callbacks props Callback.onNext) eqn:Hnext,
             (Props.showNavigation props); simpl;
    by rewrite ?Hprev, ?Hnext.
Qed.

(** *** More on labels and validation *)

Lemma forallb_ext_in {A} (f g : A → bool) (l : list A) :
  (∀ x, x ∈ l → f x = g x) → forallb f l = forallb g l.
Proof.
  induction l as [|x l IH]; intros Hfg; simpl; [done|].
  rewrite (Hfg x), IH; [done| |]; [|apply list_elem_of_here].
  intros y Hy. apply Hfg. by apply list_elem_of_further.
Qed.

Lemma setLabels_level (props : Props.t) (draft : Draft.t)
    (current : LabelAssignment) :
  ComputedState.level (computedState props (setLabels current draft)) =
  ComputedState.level (computedState props draft).
Proof.
  simpl. destruct (Drawing.active (Draft.drawing draft)) eqn:Ha; simpl;
    by rewrite ?Ha.
Qed.

Lemma setLabels_labels (props : Props.t) (draft : Draft.t)
    (current : LabelAssignment) :
  ComputedState.labels (computedState props (setLabels current draft)) = current.
Proof.
  simpl. destruct (Drawing.active (Draft.drawing draft)) eqn:Ha; simpl;
    by rewrite ?Ha.
Qed.

(** After [setLabels], validation tests the new assignment against the
    definitions of the level as the caller supplied them. *)
Lemma requiredFieldsFilled_setLabels (props : Props.t) (draft : Draft.t)
    (current : LabelAssignment) :
  requiredFieldsFilled props (setLabels current draft) =
  forallb
    (λ c, negb (LabelConfig.required c) ||
          (0 <? entryLength current (LabelConfig.name c)))
    (definitions props (ComputedState.level (computedState props draft))).
Proof.
  rewrite <- (forallb_shortcutify
    (λ name required, negb required || (0 <? entryLength current name))).
  rewrite <- activeConfig_definitions.
  unfold requiredFieldsFilled. simpl.
  destruct (Drawing.active (Draft.drawing draft)) eqn:Ha; simpl;
    by rewrite ?Ha.
Qed.

(** X8. What [setLabels] writes is what validation reads: afterwards the
    relevant assignment is the one given and the level is the same; and,
    provided no required definition of that level is named after a member
    that a plain object inherits with a length above 0, the required fields
    are filled exactly when every required definition of the level has a
    non-empty entry in the assignment given. *)
Theorem setLabels_read_back (props : Props.t) (draft : Draft.t)
    (current : LabelAssignment) :
  ComputedState.labels (computedState props (setLabels current draft)) =
    current ∧
  ComputedState.level (computedState props (setLabels current draft)) =
    ComputedState.level (computedState props draft) ∧
  (ownNames
     (definitions props (ComputedState.level (computedState props draft))) →
   (requiredFieldsFilled props (setLabels current draft) = true ↔
    Forall (satisfied current)
      (definitions props (ComputedState.level (computedState props draft))))).
Proof.
  split; [apply setLabels_labels|]. split; [apply setLabels_level|].
  intros Hown. rewrite requiredFieldsFilled_answered.
  rewrite setLabels_labels, setLabels_level.
  by apply Forall_answered_satisfied.
Qed.

(** X9. [setLabels] changes one assignment and nothing else but [dirty]:
    the committed regions and the drawing mode, flood flag, threshold and
    radius stay; with a region active the image labels stay and the region
    keeps its id, geometry, read-only flag and metadata; with none active
    the active slot stays empty. *)
Theorem setLabels_frame (draft : Draft.t) (current : LabelAssignment) :
  let draft' := setLabels current draft in
  Draft.dirty draft' = true ∧
  (∀ mode, DraftLabels.get mode (Draft.labels draft') =
           DraftLabels.get mode (Draft.labels draft)) ∧
  Drawing.mode (Draft.drawing draft') = Drawing.mode (Draft.drawing draft) ∧
  Drawing.flood (Draft.drawing draft') = Drawing.flood (Draft.drawing draft) ∧
  Drawing.threshold (Draft.drawing draft') =
    Drawing.threshold (Draft.drawing draft) ∧
  Drawing.radius (Draft.drawing draft') = Drawing.radius (Draft.drawing draft) ∧
  match Drawing.active (Draft.drawing draft) with
  | Some active =>
      DraftLabels.image (Draft.labels draft') =
        DraftLabels.image (Draft.labels draft) ∧
      ∃ region',
        Drawing.active (Draft.drawing draft') = Some (Active.mk region') ∧
        Region.labels region' = current ∧
        Region.id region' = Region.id (Active.region active) ∧
        Region.geometry region' = Region.geometry (Active.region active) ∧
        Region.readonly region' = Region.readonly (Active.region active) ∧
        Region.metadata region' = Region.metadata (Active.region active)
  | None =>
      DraftLabels.image (Draft.labels draft') = current ∧
      Drawing.active (Draft.drawing draft') = None
  end.
Proof.
  simpl. destruct (Drawing.active (Draft.drawing draft)) as [active|] eqn:Ha;
    simpl; rewrite ?Ha.
  - repeat split; try by intros []. eexists. by repeat split.
  - repeat split; by intros [].
Qed.

(** X10. The last [setLabels] wins: an assignment set before it leaves no
    trace. *)
Theorem setLabels_last_wins (draft : Draft.t) (first last : LabelAssignment) :
  setLabels last (setLabels first draft) = setLabels last draft.
Proof.
  unfold setLabels. simpl.
  destruct (Drawing.active (Draft.drawing draft)) eqn:Ha; simpl;
    by rewrite ?Ha.
Qed.

(** X11. Labels set on the active region are the labels it is committed
    with: [finishRegion(true)] after [setLabels] puts at the head of the
    list of the current mode the active region with the assignment given,
    its id, geometry, read-only flag and metadata as before. *)
Theorem setLabels_then_commit (draft : Draft.t) (active : Active.t)
    (current : LabelAssignment) :
  Drawing.active (Draft.drawing draft) = Some active →
  ∃ draft' region',
    finishRegion true (setLabels current draft) = Ok draft' ∧
    DraftLabels.get (Drawing.mode (Draft.drawing draft)) (Draft.labels draft') =
      region' ::
      DraftLabels.get (Drawing.mode (Draft.drawing draft)) (Draft.labels draft) ∧
    Region.labels region' = current ∧
    Region.id region' = Region.id (Active.region active) ∧
    Region.geometry region' = Region.geometry (Active.region active) ∧
    Region.readonly region' = Region.readonly (Active.region active) ∧
    Region.metadata region' = Region.metadata (Active.region active) ∧
    DraftLabels.image (Draft.labels draft') =
      DraftLabels.image (Draft.labels draft).
Proof.
  intros Ha. unfold finishRegion, setLabels. simpl. rewrite Ha. simpl.
  eexists _, _. split; [reflexivity|]. simpl.
  by destruct (Drawing.mode (Draft.drawing draft)).
Qed.

(** X12. For validation an empty entry is no entry, under a name that a
    plain object inherits nothing with a length above 0 for: an assignment
    that maps such a name to the empty list validates like the assignment
    without that name. *)
Theorem empty_entry_is_missing (props : Props.t) (draft : Draft.t)
    (current : LabelAssignment) (name : string) :
  inheritedLength name = 0 →
  requiredFieldsFilled props (setLabels (<[name := []]> current) draft) =
  requiredFieldsFilled props (setLabels (delete name current) draft).
Proof.
  intros Hown. unfold requiredFieldsFilled. simpl.
  destruct (Drawing.active (Draft.drawing draft)) eqn:Ha; simpl;
    rewrite ?Ha; simpl;
    apply forallb_ext_in; intros c _; f_equal; unfold entryLength;
    (destruct (decide (name = LabelConfig.name c)) as [<-|Hne];
     [by rewrite lookup_insert_eq, lookup_delete_eq, Hown
     |by rewrite lookup_insert_ne, lookup_delete_ne]).
Qed.

(** X13. Validation looks only at the names of required definitions: to
    add, replace or remove the entry of any other name does not change the
    answer. *)
Theorem validation_ignores_other_names (props : Props.t) (draft : Draft.t)
    (current : LabelAssignment) (name : string) (entry : option (list string)) :
  (∀ c, c ∈ definitions props (ComputedState.level (computedState props draft)) →
        LabelConfig.required c = true → LabelConfig.name c ≠ name) →
  requiredFieldsFilled props
    (setLabels (partial_alter (λ _, entry) name current) draft) =
  requiredFieldsFilled props (setLabels current draft).
Proof.
  intros Hother. rewrite !requiredFieldsFilled_setLabels.
  apply forallb_ext_in. intros c Hc.
  destruct (LabelConfig.required c) eqn:Hreq; [simpl|done].
  unfold entryLength. rewrite lookup_partial_alter_ne; [done|].
  intros Heq. by apply (Hother c Hc Hreq).
Qed.

Lemma forallb_impl {A} (f g : A → bool) (l : list A) :
  (∀ x, f x = true → g x = true) → forallb f l = true → forallb g l = true.
Proof.
  intros Hfg. induction l as [|x l IH]; simpl; [done|].
  intros [Hx Hl]%andb_true_iff. by rewrite (Hfg x Hx), IH.
Qed.

(** X26. An answer never spoils validation: when the required fields are
    filled by an assignment, they are filled by the assignment with a
    non-empty entry put under any name. *)
Theorem answering_keeps_filled (props : Props.t) (draft : Draft.t)
    (current : LabelAssignment) (name : string) (values : list string) :
  values ≠ [] →
  requiredFieldsFilled props (setLabels current draft) = true →
  requiredFieldsFilled props (setLabels (<[name := values]> current) draft) =
    true.
Proof.
  intros Hvalues. rewrite !requiredFieldsFilled_setLabels.
  apply forallb_impl. intros c.
  destruct (decide (name = LabelConfig.name c)) as [->|Hne].
  - intros _. unfold entryLength. rewrite lookup_insert_eq.
    destruct values; [done|]. apply orb_true_r.
  - unfold entryLength. by rewrite lookup_insert_ne.
Qed.

(** X27. A level without a required definition never blocks: whatever the
    draft holds, the required fields count as filled. *)
Theorem optional_definitions_never_block (props : Props.t) (draft : Draft.t) :
  Forall (λ c, LabelConfig.required c = false)
    (definitions props (ComputedState.level (computedState props draft))) →
  requiredFieldsFilled props draft = true.
Proof.
  intros Hoptional. apply requiredFieldsFilled_answered.
  eapply Forall_impl; [exact Hoptional|].
  intros c Hc. unfold answered. congruence.
Qed.

(** *** More on the transitions of the draft *)

(** X14. A region is finished once: after [finishRegion] has succeeded no
    region is active, so a second call throws; and the number of committed
    regions has grown by one on commit and not at all otherwise. *)
Theorem finishRegion_once (save : bool) (draft draft' : Draft.t) :
  finishRegion save draft = Ok draft' →
  (∀ save', finishRegion save' draft' =
     Throw "Called to finish region but no region is selected.") ∧
  regionCount (Draft.labels draft') =
    regionCount (Draft.labels draft) + (if save then 1 else 0).
Proof.
  unfold finishRegion.
  destruct (Drawing.active (Draft.drawing draft)); [|done].
  intros [= <-]. split; [done|]. unfold regionCount.
  destruct (Drawing.mode (Draft.drawing draft)), save; simpl; lia.
Qed.

Lemma transition_keeps (command : Command) (draft draft' : Draft.t) :
  transition command draft = Ok draft' →
  (∀ mode, DraftLabels.get mode (Draft.labels draft) `suffix_of`
           DraftLabels.get mode (Draft.labels draft')) ∧
  (Draft.dirty draft = true ∨ changesLabels command = true →
   Draft.dirty draft' = true).
Proof.
  destruct command; simpl;
    try (intros [= <-]; simpl; split; [done|by intros [?|?]]).
  - intros [= <-]. simpl. split; [|done].
    by destruct (Drawing.active (Draft.drawing draft)); intros [].
  - unfold finishRegion.
    destruct (Drawing.active (Draft.drawing draft)); [|done].
    intros [= <-]. simpl. split; [|done].
    intros mode.
    destruct (Drawing.mode (Draft.drawing draft)), mode; simpl;
      try done; by apply suffix_app_r.
Qed.

(** X15. No sequence of commands on the draft removes, reorders or alters a
    committed region: when the sequence runs through, every list of regions
    ends with the list it started from. The draft ends dirty if it started
    dirty or if the sequence had a [setLabels] or a [finishRegion]. *)
Theorem run_keeps_regions (commands : list Command) (draft draft' : Draft.t) :
  run commands draft = Ok draft' →
  (∀ mode, DraftLabels.get mode (Draft.labels draft) `suffix_of`
           DraftLabels.get mode (Draft.labels draft')) ∧
  (Draft.dirty draft = true ∨ existsb changesLabels commands = true →
   Draft.dirty draft' = true).
Proof.
  revert draft. induction commands as [|command commands IH]; intros draft.
  - intros [= <-]. split; [done|]. by intros [?|?].
  - simpl. destruct (transition command draft) as [draft1|] eqn:Hstep; [|done].
    intros Hrun. destruct (transition_keeps _ _ _ Hstep) as [Hlists Hdirty].
    destruct (IH _ Hrun) as [Hlists' Hdirty']. split.
    + intros mode. by trans (DraftLabels.get mode (Draft.labels draft1)).
    + intros H. apply Hdirty'.
      destruct H as [H|[H|H]%orb_true_iff]; auto.
Qed.

Lemma Draft_eta (draft : Draft.t) :
  {| Draft.labels := Draft.labels draft;
     Draft.drawing := Draft.drawing draft;
     Draft.dirty := Draft.dirty draft |} = draft.
Proof. by destruct draft. Qed.

(** X16. The flood checkbox works in masks mode only: in another mode
    [setFlood] returns the draft as it is, in masks mode it sets the flood
    flag; it never touches anything else. *)
Theorem setFlood_only_in_masks (flood : bool) (draft : Draft.t) :
  (Drawing.mode (Draft.drawing draft) ≠ Mode.masks →
   setFlood flood draft = draft) ∧
  (Drawing.mode (Draft.drawing draft) = Mode.masks →
   Drawing.flood (Draft.drawing (setFlood flood draft)) = flood) ∧
  Drawing.mode (Draft.drawing (setFlood flood draft)) =
    Drawing.mode (Draft.drawing draft) ∧
  Drawing.active (Draft.drawing (setFlood flood draft)) =
    Drawing.active (Draft.drawing draft) ∧
  Drawing.threshold (Draft.drawing (setFlood flood draft)) =
    Drawing.threshold (Draft.drawing draft) ∧
  Drawing.radius (Draft.drawing (setFlood flood draft)) =
    Drawing.radius (Draft.drawing draft) ∧
  Draft.labels (setFlood flood draft) = Draft.labels draft ∧
  Draft.dirty (setFlood flood draft) = Draft.dirty draft.
Proof.
  unfold setFlood.
  destruct (Drawing.mode (Draft.drawing draft)) eqn:Hmode; simpl;
    rewrite ?Hmode; repeat split; try done; intros _; apply Draft_eta.
Qed.

(** X17. A switch of the drawing mode is undone by the switch back: the
    draft is then exactly the one before. The threshold and the radius can
    be set before or after a switch with the same result. *)
Theorem setDrawingMode_round_trip (mode : Mode.t) (draft : Draft.t) :
  setDrawingMode (Drawing.mode (Draft.drawing draft))
    (setDrawingMode mode draft) = draft ∧
  (∀ value, setDrawingMode mode (setThreshold value draft) =
            setThreshold value (setDrawingMode mode draft)) ∧
  (∀ value, setDrawingMode mode (setRadius value draft) =
            setRadius value (setDrawingMode mode draft)).
Proof.
  split; [|done]. by destruct draft as [labels [] dirty].
Qed.

(** *** More on the panels *)

(** X18. The drawing mode panel hands over a draft exactly when the region
    level has a definition, regions are allowed, no region is active and
    the menu is not disabled; the draft is then [draft] with the mode
    chosen. *)
Theorem drawingModePanel_available (props : Props.t) (draft draft' : Draft.t)
    (mode : Mode.t) :
  drawingModePanel props draft mode = Some draft' ↔
  definitions props Level.regions ≠ [] ∧
  Props.allowRegion props = true ∧
  Drawing.active (Draft.drawing draft) = None ∧
  Props.disabled props = false ∧
  draft' = setDrawingMode mode draft.
Proof.
  unfold drawingModePanel, drawingModeDisabled, LabelPanel. simpl.
  change (default [] (Props.config props ≫= Config.regions))
    with (definitions props Level.regions).
  pose proof (shortcutify_length (definitions props Level.regions)) as Hlen.
  destruct (definitions props Level.regions) as [|c l];
    destruct (shortcutify _) as [|c' l']; try done; simpl.
  - split; [done|]. by intros [? _].
  - destruct (Props.allowRegion props),
             (Drawing.active (Draft.drawing draft)),
             (Props.disabled props); simpl;
      split; try done; try (by intros (_ & ? & ? & ? & _));
      [by intros [= <-]|by intros (_ & _ & _ & _ & ->)].
Qed.

(** X19. The label panel hands over a draft exactly when the menu is not
    disabled and the active region, if any, is not read-only; the draft is
    then the one [setLabels] builds. The labels of a read-only region are
    never changed through the panel. *)
Theorem labelPanel_guard (props : Props.t) (draft draft' : Draft.t)
    (current : LabelAssignment) :
  labelPanel props draft current = Some draft' ↔
  Props.disabled props = false ∧
  (∀ active, Drawing.active (Draft.drawing draft) = Some active →
     Region.readonly (Active.region active) = false) ∧
  draft' = setLabels current draft.
Proof.
  unfold labelPanel, LabelPanel. simpl.
  destruct (Props.disabled props); simpl.
  { split; [done|]. by intros [? _]. }
  destruct (Drawing.active (Draft.drawing draft)) as [active|]; simpl.
  - destruct (Region.readonly (Active.region active)) eqn:Hro; simpl.
    + split; [done|]. intros (_ & H & _). specialize (H _ eq_refl). congruence.
    + split.
      * intros [= <-]. repeat split. by intros ? [= <-].
      * by intros (_ & _ & ->).
  - split.
    + intros [= <-]. by repeat split.
    + by intros (_ & _ & ->).
Qed.

(** *** More on the configuration editor *)

Lemma computedState_config_get (props : Props.t) (draft : Draft.t)
    (level : Level.t) :
  Config.get level (ComputedState.config (computedState props draft)) =
  Some (shortcutify (definitions props level)).
Proof. unfold definitions. destruct level; simpl; by destruct (Props.config props). Qed.

Lemma computedState_activeConfig_get (props : Props.t) (draft : Draft.t) :
  Config.get (ComputedState.level (computedState props draft))
    (ComputedState.config (computedState props draft)) =
  Some (ComputedState.activeConfig (computedState props draft)).
Proof. by rewrite computedState_config_get, activeConfig_definitions. Qed.

Lemma Config_get_set (level : Level.t) (l : list LabelConfig.t) (c : Config.t) :
  Config.get level (Config.set level l c) = Some l.
Proof. by destruct level. Qed.

Lemma findIndex_from_first {A} (f : A → bool) (i : Z) (l : list A)
    (j : nat) (x : A) :
  l !! j = Some x → (i + Z.of_nat j < findIndex_from f i l)%Z → f x = false.
Proof.
  revert i j. induction l as [|y l IH]; intros i j; [done|]. simpl.
  destruct (f y) eqn:Hfy; [lia|].
  destruct j as [|j]; simpl.
  - by intros [= <-].
  - intros Hx Hlt. apply (IH (i + 1)%Z j Hx). lia.
Qed.

Lemma findIndex_from_none {A} (f : A → bool) (i : Z) (l : list A) :
  (∀ x, x ∈ l → f x = false) → findIndex_from f i l = (-1)%Z.
Proof.
  revert i. induction l as [|y l IH]; intros i Hf; [done|]. simpl.
  rewrite (Hf y) by apply list_elem_of_here.
  apply IH. intros x Hx. apply Hf. by apply list_elem_of_further.
Qed.

Lemma slice_all_but_last {A} (l : list A) :
  slice 0 (Some (-1)%Z) l = take (length l - 1) l.
Proof.
  unfold slice. simpl. rewrite (Z.min_l 0) by lia.
  change (Z.to_nat 0) with 0. rewrite drop_0, Z.sub_0_r.
  f_equal. lia.
Qed.

(** X20. Adding keeps the names of a level distinct: when they are distinct
    and a save without an index succeeds, the names of the list passed on
    for that level are distinct again, and the list is one longer. *)
Theorem add_keeps_names_unique (props : Props.t) (draft : Draft.t)
    (state state' : State.t) (newLabelConfig : LabelConfig.t)
    (level : Level.t) (config' : Config.t) :
  State.index state = None →
  NoDup (LabelConfig.name <$> definitions props level) →
  onSave props draft state newLabelConfig level = Ok (config', state') →
  ∃ l,
    Config.get level config' = Some l ∧
    NoDup (LabelConfig.name <$> l) ∧
    length l = S (length (definitions props level)).
Proof.
  intros Hindex Hnodup. unfold onSave.
  rewrite Hindex, computedState_config_get. simpl.
  destruct (present (find _ _)) eqn:Hfind; [done|].
  rewrite splice_append. intros [= <- <-].
  eexists. split; [apply Config_get_set|]. split.
  - rewrite fmap_app, shortcutify_names. apply NoDup_app.
    split; [done|]. split; [|apply NoDup_singleton].
    intros name Hname ->%list_elem_of_singleton.
    rewrite <- shortcutify_names in Hname.
    apply find_name_present in Hname. congruence.
  - rewrite length_app, shortcutify_length. simpl. lia.
Qed.

(** X21. Editing compares no name: a save with the index of a definition
    goes through even when the new definition takes the name of another
    definition of the level, and the list passed on then has that name
    twice. *)
Theorem edit_skips_name_check (props : Props.t) (draft : Draft.t)
    (state : State.t) (newLabelConfig : LabelConfig.t) (level : Level.t)
    (i : Z) (j : nat) (c : LabelConfig.t) :
  State.index state = Some i →
  (0 ≤ i < Z.of_nat (length (definitions props level)))%Z →
  j ≠ Z.to_nat i →
  definitions props level !! j = Some c →
  LabelConfig.name c = LabelConfig.name newLabelConfig →
  ∃ config' l,
    onSave props draft state newLabelConfig level =
      Ok (config', State.mk false None) ∧
    Config.get level config' = Some l ∧
    ¬ NoDup (LabelConfig.name <$> l).
Proof.
  intros Hindex Hi Hj Hc Hname. unfold onSave.
  rewrite Hindex, computedState_config_get. simpl.
  rewrite splice_insert by (by rewrite shortcutify_length).
  eexists _, _. split; [reflexivity|]. split; [apply Config_get_set|].
  intros Hnodup. apply Hj.
  apply (NoDup_lookup _ j (Z.to_nat i) (LabelConfig.name newLabelConfig) Hnodup).
  - rewrite list_fmap_insert, list_lookup_insert_ne by done.
    by rewrite shortcutify_names, list_lookup_fmap, Hc, <- Hname.
  - rewrite list_fmap_insert. apply list_lookup_insert_eq.
    rewrite length_fmap, shortcutify_length. lia.
Qed.

(** X22. To edit the definition of a name and save replaces the first
    definition of the active level that has the name, in place; the other
    definitions keep their positions. *)
Theorem editConfig_then_onSave (props : Props.t) (draft : Draft.t)
    (edit : string → State.t) (name : string) (newLabelConfig : LabelConfig.t) :
  let cs := computedState props draft in
  editConfig props draft = Some edit →
  name ∈ LabelConfig.name <$> ComputedState.activeConfig cs →
  ∃ (i : nat) c,
    ComputedState.activeConfig cs !! i = Some c ∧
    LabelConfig.name c = name ∧
    (∀ j c', j < i → ComputedState.activeConfig cs !! j = Some c' →
       LabelConfig.name c' ≠ name) ∧
    onSave props draft (edit name) newLabelConfig (ComputedState.level cs) =
      Ok (Config.set (ComputedState.level cs)
            (<[i := newLabelConfig]> (ComputedState.activeConfig cs))
            (ComputedState.config cs),
          State.mk false None).
Proof.
  intros cs Hedit Hname.
  destruct (editConfig_index props draft edit name Hedit Hname)
    as (i & c & Hstate & Hrange & Hlookup & Hc).
  exists (Z.to_nat i), c. split; [done|]. split; [done|]. split.
  - intros j c' Hj Hc' Heq.
    unfold editConfig in Hedit.
    destruct (Props.callbacks props _); [|done].
    injection Hedit as <-. injection Hstate as <-.
    assert ((LabelConfig.name c' =? name)%string = false) as Hne.
    { apply (findIndex_from_first
        (λ c, (LabelConfig.name c =? name)%string) 0 _ j c' Hc').
      set (k := findIndex_from _ 0 (ComputedState.activeConfig cs)).
      assert (j < Z.to_nat k) as Hj' by exact Hj. lia. }
    apply String.eqb_neq in Hne. done.
  - unfold onSave. rewrite Hstate. fold cs.
    unfold cs at 1 2. rewrite computedState_activeConfig_get. fold cs. simpl.
    by rewrite splice_insert.
Qed.

(** X23. To edit a name that no definition of the active level has stores
    the index -1, and a save with it passes on all definitions of the level
    but the last, then the new one, then all of them again. *)
Theorem editConfig_unknown_name (props : Props.t) (draft : Draft.t)
    (edit : string → State.t) (name : string) :
  let cs := computedState props draft in
  editConfig props draft = Some edit →
  name ∉ LabelConfig.name <$> ComputedState.activeConfig cs →
  edit name = State.mk true (Some (-1)%Z) ∧
  ∀ newLabelConfig,
    onSave props draft (edit name) newLabelConfig (ComputedState.level cs) =
      Ok (Config.set (ComputedState.level cs)
            (take (length (ComputedState.activeConfig cs) - 1)
               (ComputedState.activeConfig cs) ++
             newLabelConfig :: ComputedState.activeConfig cs)
            (ComputedState.config cs),
          State.mk false None).
Proof.
  intros cs Hedit Hname.
  assert (edit name = State.mk true (Some (-1)%Z)) as Hstate.
  { unfold editConfig in Hedit.
    destruct (Props.callbacks props _); [|done]. injection Hedit as <-.
    unfold findIndex. rewrite findIndex_from_none; [done|].
    intros c Hc. apply String.eqb_neq. intros <-. apply Hname.
    apply list_elem_of_fmap. by exists c. }
  split; [done|]. intros newLabelConfig.
  unfold onSave. rewrite Hstate. fold cs.
  unfold cs at 1 2. rewrite computedState_activeConfig_get. fold cs. simpl.
  by rewrite slice_all_but_last, (slice_drop 0) by lia.
Qed.

(** *** The toast of the labeler frame *)

Lemma notified_forwarded (props : Props.t) (event : KeyboardEvent.t)
    (s : Labeler.State) :
  Labeler.notified (forwarded props event) s = s.
Proof. unfold forwarded. by destruct (Props.callbacks props _). Qed.

(** X24. The toast that a key event raises is on display afterwards: the
    frame then holds its message and the snackbar is open, whatever it
    showed before; an event that raises none leaves the toast as it was.
    The focus flag is not touched, and to close the snackbar empties the
    toast. *)
Theorem toast_reaches_snackbar (props : Props.t) (draft : Draft.t)
    (event : KeyboardEvent.t) (s : Labeler.State) :
  let effects := keyboardHandler props draft event in
  let s' := Labeler.notified effects s in
  (∀ m, SetToast m ∈ effects →
     Labeler.toast s' = m ∧ Labeler.snackbarOpen s' = true) ∧
  ((∀ m, SetToast m ∉ effects) → s' = s) ∧
  Labeler.hasFocus s' = Labeler.hasFocus s ∧
  ∀ hiddenMounted,
    Labeler.snackbarOpen (Labeler.handleClose hiddenMounted s').1 = false.
Proof.
  intros effects s'. unfold s', effects.
  destruct (keyboardHandler_tail props draft event) as (tail & -> & Htail).
  unfold Labeler.notified. rewrite foldl_app.
  fold (Labeler.notified (forwarded props event) s).
  rewrite notified_forwarded.
  assert (∀ m, SetToast m ∈ forwarded props event ++ tail → SetToast m ∈ tail)
    as Htoast.
  { intros m [H|H]%elem_of_app; [|done].
    by apply (elem_of_forwarded props) in H. }
  assert (∀ hiddenMounted s0,
            Labeler.snackbarOpen (Labeler.handleClose hiddenMounted s0).1 =
            false) as Hclose by done.
  destruct Htail as [->|[(m0 & -> & Hm0)|(t0 & toasts & -> & _)]]; simpl.
  - split; [|done]. intros m Hm%Htoast. by apply elem_of_nil in Hm.
  - split; [|split; [|done]].
    + intros m Hm. apply Htoast, list_elem_of_singleton in Hm as [= ->].
      split; [done|]. unfold Labeler.snackbarOpen. simpl.
      apply list_elem_of_In in Hm0. simpl in Hm0.
      by destruct Hm0 as [<-|[<-|[<-|[]]]].
    + intros Hnone. exfalso. apply (Hnone m0), elem_of_app. right.
      by apply list_elem_of_singleton.
  - split; [|done]. intros m Hm%Htoast.
    repeat (apply elem_of_cons in Hm as [Hm|Hm]; [discriminate|]).
    by apply elem_of_nil in Hm.
Qed.

End ControlMenu.

(** ** Properties of the mask canvas *)

Section MaskProperties.

Variable matched : Z → bool.

Lemma paint_from_length (i : nat) (data bytes : list Z) :
  length (paint_from i data bytes) = length data.
Proof.
  revert i data. induction bytes as [|v bytes IH]; intros i data; [done|].
  simpl. by rewrite IH, length_insert.
Qed.

(** Byte [j] of the painted array is the byte written to it, if one was. *)
Lemma paint_from_lookup (i : nat) (data bytes : list Z) (j : nat) :
  paint_from i data bytes !! j =
  if decide (i ≤ j < i + length bytes ∧ j < length data)
  then clampByte <$> bytes !! (j - i) else data !! j.
Proof.
  revert i data. induction bytes as [|v bytes IH]; intros i data; simpl.
  { case_decide; [lia|done]. }
  rewrite IH, length_insert.
  destruct (decide (j = i)) as [->|Hne].
  - rewrite Nat.sub_diag. simpl.
    destruct (decide (i < length data)).
    + rewrite list_lookup_insert_eq by done. repeat case_decide; done || lia.
    + rewrite list_insert_ge by lia. repeat case_decide; done || lia.
  - rewrite list_lookup_insert_ne by done.
    repeat case_decide; try done; try lia.
    by replace (j - i) with (S (j - S i)) by lia.
Qed.

Lemma pixel_length (activeColor : ActiveColor.t) (v : Z) :
  length (if matched v then activeColorValues activeColor
          else [0; 0; 0; 0]%Z) = 4.
Proof. by destruct (matched v), activeColor. Qed.

Lemma pixel_clamped (activeColor : ActiveColor.t) (v : Z) (k : nat) :
  clampByte <$> (clampByte <$>
    (if matched v then activeColorValues activeColor else [0; 0; 0; 0]%Z) !! k) =
  (if matched v then activeColorValues activeColor else [0; 0; 0; 0]%Z) !! k.
Proof.
  destruct (matched v), activeColor; by destruct k as [|[|[|[|k]]]].
Qed.

Lemma maskBytes_length (activeColor : ActiveColor.t) (values : list Z) :
  length (maskBytes matched activeColor values) = 4 * length values.
Proof.
  unfold maskBytes. induction values as [|v values IH]; csimpl; [done|].
  rewrite length_app, IH, pixel_length. lia.
Qed.

Lemma maskBytes_lookup (activeColor : ActiveColor.t) (values : list Z)
    (i k : nat) (v : Z) :
  values !! i = Some v → k < 4 →
  maskBytes matched activeColor values !! (i * 4 + k) =
  (if matched v then activeColorValues activeColor else [0; 0; 0; 0]%Z) !! k.
Proof.
  intros Hv Hk. unfold maskBytes.
  destruct ((if matched v then activeColorValues activeColor
             else [0; 0; 0; 0]%Z) !! k) as [x|] eqn:Hx.
  - apply (join_lookup_Some_same_length' 4); [|done|].
    + apply Forall_fmap, Forall_forall. intros ? _. apply pixel_length.
    + eexists. split; [|done]. by rewrite list_lookup_fmap, Hv.
  - apply lookup_ge_None in Hx. rewrite pixel_length in Hx. lia.
Qed.

(** X25. When the effect puts an image on the canvas, the image has the
    size of the bitmap and four bytes for each of its pixels. The pixel of
    a value that is matched has the active colour, red or blue, fully
    opaque; the pixel of any other value, and a pixel the bitmap has no
    value for, is transparent black. Values beyond the size of the bitmap
    are not painted. *)
Theorem mask_pixels (bitmap : Bitmap.t) (activeColor : ActiveColor.t)
    (canvas : CanvasRef) (image : ImageData.t) :
  maskEffect matched (Some bitmap) activeColor canvas = Ok (Some image) →
  let width := Dimensions.width (Bitmap.dimensions bitmap) in
  let height := Dimensions.height (Bitmap.dimensions bitmap) in
  ImageData.width image = width ∧
  ImageData.height image = height ∧
  length (ImageData.data image) = 4 * (width * height) ∧
  ∀ i k, i < width * height → k < 4 →
    ImageData.data image !! (4 * i + k) =
    match Bitmap.values bitmap !! i with
    | Some v =>
        (if matched v then activeColorValues activeColor
         else [0; 0; 0; 0]%Z) !! k
    | None => Some 0%Z
    end.
Proof.
  unfold maskEffect, createImageData.
  destruct canvas as [|[|]]; cbn -[Nat.mul]; try done.
  destruct (_ || _); [done|]. intros [= <-].
  cbn [ImageData.data ImageData.width ImageData.height].
  split; [done|]. split; [done|]. split.
  { by rewrite paint_from_length, length_replicate. }
  intros i k Hi Hk. rewrite paint_from_lookup.
  unfold Uint8ClampedArray_from.
  rewrite length_fmap, maskBytes_length, length_replicate, Nat.sub_0_r.
  replace (4 * i + k) with (i * 4 + k) by lia.
  destruct (Bitmap.values bitmap !! i) as [v|] eqn:Hv.
  - pose proof (lookup_lt_Some _ _ _ Hv).
    rewrite decide_True by lia.
    by rewrite list_lookup_fmap, (maskBytes_lookup _ _ _ _ v), pixel_clamped.
  - apply lookup_ge_None in Hv.
    rewrite decide_False by lia. apply lookup_replicate_2. lia.
Qed.

End MaskProperties.

(** ** The properties on the sample data *)

Lemma shortcutify_initials_fields : PreservesFields shortcutify_initials.
Proof.
  intros l. unfold shortcutify_initials. by rewrite <- list_fmap_compose.
Qed.

Lemma requiredFieldsFilled_inherited_name_witness :
  requiredFieldsFilled shortcutify_initials constructor_props clean_draft =
    true ∧
  ¬ satisfied (DraftLabels.image (Draft.labels clean_draft)) constructor_field.
Proof.
  destruct (requiredFieldsFilled_inherited_name shortcutify_initials
              shortcutify_initials_fields) as (Hfilled & _ & _ & Hmissing).
  split; [exact Hfilled|]. intros H. apply Hmissing.
  by apply Forall_singleton.
Defined.

Lemma requiredFieldsFilled_own_names_witness :
  requiredFieldsFilled shortcutify_initials sample_props clean_draft = true ↔
  Forall (satisfied ∅) [quality].
Proof.
  apply (requiredFieldsFilled_own_names shortcutify_initials
           shortcutify_initials_fields sample_props clean_draft).
  apply Forall_singleton. intros _. reflexivity.
Defined.

Lemma enter_resolution_witness :
  resolveTarget clean_draft (press "Enter") = Some ([], Some Target.save) ∧
  resolveTarget (editing unlabelled_region) (press "Enter") =
    Some ([], Some Target.finishRegion).
Proof.
  split.
  - apply (enter_resolution shortcutify_initials clean_draft (press "Enter"));
      reflexivity.
  - apply (enter_resolution shortcutify_initials (editing unlabelled_region)
             (press "Enter")); reflexivity.
Defined.

Lemma enter_rejected_witness :
  keyboardHandler shortcutify_initials sample_props clean_draft (press "Enter") =
    [CallOnKeyboardEvent (press "Enter");
     SetToast "Please fill in all required fields."] ∧
  draftAfter shortcutify_initials sample_props (editing unlabelled_region)
    (keyboardHandler shortcutify_initials sample_props
       (editing unlabelled_region) (press "Enter")) =
    editing unlabelled_region.
Proof.
  split.
  - apply (enter_rejected shortcutify_initials sample_props clean_draft
             (press "Enter")); reflexivity.
  - apply (enter_rejected shortcutify_initials sample_props
             (editing unlabelled_region) (press "Enter")); reflexivity.
Defined.

Lemma enter_saves_unanswered_witness :
  keyboardHandler shortcutify_initials constructor_props clean_draft
    (press "Enter") =
    [CallOnKeyboardEvent (press "Enter");
     SimulateClick Target.save; PreventDefault; StopPropagation] ∧
  click shortcutify_initials constructor_props clean_draft Target.save =
    Called Callback.onSave.
Proof.
  destruct (enter_saves_unanswered shortcutify_initials
              shortcutify_initials_fields) as (_ & Heffects & Hclick).
  split; [exact Heffects|exact Hclick].
Defined.

Lemma navigation_blocked_when_dirty_witness :
  keyboardHandler shortcutify_initials sample_props dirty_draft
    (press "ArrowRight") =
    [CallOnKeyboardEvent (press "ArrowRight");
     SetToast
       "Please save or reset your changes before advancing to next item."] ∧
  keyboardHandler shortcutify_initials sample_props dirty_draft
    (press "ArrowLeft") =
    [CallOnKeyboardEvent (press "ArrowLeft");
     SetToast
       "Please save or reset your changes before returning to previous item."].
Proof.
  split.
  - apply (navigation_blocked_when_dirty shortcutify_initials sample_props
             dirty_draft (press "ArrowRight")); [reflexivity|reflexivity|].
    left. repeat split.
  - apply (navigation_blocked_when_dirty shortcutify_initials sample_props
             dirty_draft (press "ArrowLeft")); [reflexivity|reflexivity|].
    by right.
Defined.

Lemma finishRegion_idle_throws_witness :
  finishRegion true clean_draft =
    Throw "Called to finish region but no region is selected." ∧
  finishRegion false clean_draft =
    Throw "Called to finish region but no region is selected.".
Proof.
  split.
  - apply (finishRegion_idle_throws true clean_draft). reflexivity.
  - apply (finishRegion_idle_throws false clean_draft). reflexivity.
Defined.

Lemma finishRegion_editing_witness :
  ∃ draft',
    finishRegion true (editing readonly_region) = Ok draft' ∧
    Drawing.active (Draft.drawing draft') = None ∧
    Draft.dirty draft' = true ∧
    DraftLabels.boxes (Draft.labels draft') = [readonly_region].
Proof.
  destruct (finishRegion_editing true (editing readonly_region)
              (Active.mk readonly_region) eq_refl)
    as (draft' & Hfinish & Hidle & Hdirty & Hlist & _).
  exists draft'. split; [exact Hfinish|]. split; [exact Hidle|].
  split; [exact Hdirty|exact Hlist].
Defined.

(** C3, as stated, fails: to commit a read-only active region does add it
    to the list of the current drawing mode. *)
Lemma finishRegion_readonly_added :
  Drawing.active (Draft.drawing (editing readonly_region)) =
    Some (Active.mk readonly_region) ∧
  Region.readonly readonly_region = true ∧
  DraftLabels.get Mode.boxes (Draft.labels (editing readonly_region)) = [] ∧
  ∃ draft',
    finishRegion true (editing readonly_region) = Ok draft' ∧
    DraftLabels.get Mode.boxes (Draft.labels draft') = [readonly_region].
Proof. repeat split. eexists. split; reflexivity. Qed.

Lemma transition_dirty_witness :
  Draft.dirty (setLabels {[ "quality" := ["good"] ]} clean_draft) = true ∧
  Draft.dirty (setThreshold 12 clean_draft) = Draft.dirty clean_draft.
Proof.
  split.
  - exact (proj1 (transition_dirty (SetLabels {[ "quality" := ["good"] ]})
                    clean_draft _ eq_refl)).
  - exact (proj1 (proj1 (transition_dirty (SetThreshold 12)
                           clean_draft _ eq_refl))).
Defined.

(** C6, as stated, fails: a switch of the drawing mode and a change of the
    threshold turn a clean draft into a different draft that is still
    clean. *)
Lemma settings_change_stays_clean :
  (∃ draft',
     transition (SetDrawingMode Mode.polygons) clean_draft = Ok draft' ∧
     draft' ≠ clean_draft ∧ Draft.dirty draft' = false) ∧
  (∃ draft',
     transition (SetThreshold 12) clean_draft = Ok draft' ∧
     draft' ≠ clean_draft ∧ Draft.dirty draft' = false).
Proof.
  split; eexists; (split; [reflexivity|]); split; [|reflexivity|..];
    try reflexivity; discriminate.
Qed.

Lemma drawingModePanel_spec_witness :
  drawingModePanel shortcutify_initials sample_props
    (editing unlabelled_region) Mode.masks = None ∧
  ∃ draft',
    drawingModePanel shortcutify_initials sample_props clean_draft Mode.masks =
      Some draft' ∧
    Drawing.mode (Draft.drawing draft') = Mode.masks ∧
    Drawing.flood (Draft.drawing draft') = false ∧
    Drawing.threshold (Draft.drawing draft') = 10%Z ∧
    Drawing.radius (Draft.drawing draft') = 5%Z.
Proof.
  split.
  - apply (drawingModePanel_spec shortcutify_initials sample_props
             (editing unlabelled_region) Mode.masks) with
      (active := Active.mk unlabelled_region). reflexivity.
  - exists (setDrawingMode Mode.masks clean_draft). split; [reflexivity|].
    destruct (drawingModePanel_spec shortcutify_initials sample_props
                clean_draft Mode.masks) as [_ Hframe].
    destruct (Hframe _ eq_refl)
      as (_ & Hmode & _ & Hflood & Hthreshold & Hradius & _).
    split; [exact Hmode|]. split; [exact Hflood|].
    split; [exact Hthreshold|exact Hradius].
Defined.

Lemma onSave_spec_witness :
  onSave shortcutify_initials sample_props clean_draft (State.mk true None)
    quality Level.image =
    Throw "User attempted to add a config with the name of an existing config." ∧
  onSave shortcutify_initials sample_props clean_draft (State.mk true None)
    quality Level.regions =
    Ok ({| Config.image := Some (shortcutify_initials [quality]);
           Config.regions := Some (shortcutify_initials [kind] ++ [quality]) |},
        State.mk false None) ∧
  onSave shortcutify_initials sample_props clean_draft (State.mk true (Some 0%Z))
    kind Level.image =
    Ok ({| Config.image := Some [kind];
           Config.regions := Some (shortcutify_initials [kind]) |},
        State.mk false None).
Proof.
  split; [|split].
  - apply (onSave_spec shortcutify_initials shortcutify_initials_fields
             sample_props clean_draft (State.mk true None) quality Level.image);
      [reflexivity|]. apply list_elem_of_singleton. reflexivity.
  - apply (onSave_spec shortcutify_initials shortcutify_initials_fields
             sample_props clean_draft (State.mk true None) quality Level.regions);
      [reflexivity|]. intros H. apply list_elem_of_singleton in H. discriminate.
  - pose proof (onSave_spec shortcutify_initials shortcutify_initials_fields
      sample_props clean_draft (State.mk true (Some 0%Z)) kind Level.image)
      as Hsave.
    cbv zeta in Hsave. destruct Hsave as (_ & _ & Hedit & _).
    apply (Hedit 0%Z); [reflexivity|]. cbn. lia.
Defined.

Lemma no_definitions_never_blocked_witness :
  requiredFieldsFilled shortcutify_initials bare_props clean_draft = true ∧
  requiredFieldsFilled shortcutify_initials bare_props
    (editing unlabelled_region) = true.
Proof.
  split.
  - apply (no_definitions_never_blocked shortcutify_initials
             shortcutify_initials_fields bare_props clean_draft). reflexivity.
  - apply (no_definitions_never_blocked shortcutify_initials
             shortcutify_initials_fields bare_props (editing unlabelled_region)).
    reflexivity.
Defined.

(** ** The further properties on the sample data *)

Lemma keyboardHandler_ignores_witness :
  keyboardHandler shortcutify_initials sample_props clean_draft (press "Tab") =
    [CallOnKeyboardEvent (press "Tab")].
Proof.
  apply (keyboardHandler_ignores shortcutify_initials sample_props clean_draft
           (press "Tab")).
  right. left. intros H. apply list_elem_of_In in H. simpl in H.
  intuition discriminate.
Defined.

Lemma keyboardHandler_click_guarded_witness :
  requiredFieldsFilled shortcutify_initials sample_props
    (editing readonly_region) = true.
Proof.
  destruct (keyboardHandler_click_guarded shortcutify_initials sample_props
              (editing readonly_region) (press "Enter") Target.finishRegion)
    as (_ & Hfilled & _).
  - apply list_elem_of_In. vm_compute. auto.
  - apply Hfilled. by right.
Defined.

Lemma enter_accepted_witness :
  keyboardHandler shortcutify_initials sample_props (editing readonly_region)
    (press "Enter") =
    [CallOnKeyboardEvent (press "Enter");
     SimulateClick Target.finishRegion; PreventDefault; StopPropagation].
Proof.
  exact (proj1 (enter_accepted shortcutify_initials sample_props
                  (editing readonly_region) (press "Enter")
                  eq_refl eq_refl eq_refl eq_refl eq_refl)).
Defined.

Lemma backspace_clears_region_witness :
  draftAfter shortcutify_initials sample_props (editing unlabelled_region)
    (keyboardHandler shortcutify_initials sample_props
       (editing unlabelled_region) (press "Backspace")) = dirty_draft ∧
  draftAfter shortcutify_initials sample_props (editing readonly_region)
    (keyboardHandler shortcutify_initials sample_props
       (editing readonly_region) (press "Delete")) = editing readonly_region.
Proof.
  split.
  - destruct (backspace_clears_region shortcutify_initials sample_props
                (editing unlabelled_region) (press "Backspace")
                (Active.mk unlabelled_region))
      as [_ (draft' & Hfinish & ->)]; try reflexivity; [by left|].
    by injection Hfinish as <-.
  - destruct (backspace_clears_region shortcutify_initials sample_props
                (editing readonly_region) (press "Delete")
                (Active.mk readonly_region))
      as [_ (draft' & _ & ->)]; try reflexivity. by right.
Defined.

Lemma undo_shortcut_witness :
  keyboardHandler shortcutify_initials sample_props clean_draft ctrl_z =
    [CallOnKeyboardEvent ctrl_z;
     SimulateClick Target.undo; PreventDefault; StopPropagation].
Proof.
  exact (proj1 (undo_shortcut shortcutify_initials sample_props clean_draft
                  ctrl_z eq_refl eq_refl)).
Defined.

Lemma arrows_navigate_witness :
  keyboardHandler shortcutify_initials sample_props clean_draft
    (press "ArrowLeft") =
    [CallOnKeyboardEvent (press "ArrowLeft");
     SimulateClick Target.prev; PreventDefault; StopPropagation].
Proof.
  exact (proj1 (arrows_navigate shortcutify_initials sample_props clean_draft
                  (press "ArrowLeft") eq_refl eq_refl eq_refl
                  (or_introl eq_refl))).
Defined.

Lemma setLabels_read_back_witness :
  requiredFieldsFilled shortcutify_initials sample_props
    (setLabels {[ "quality" := ["good"] ]} clean_draft) = true.
Proof.
  destruct (setLabels_read_back shortcutify_initials
              shortcutify_initials_fields sample_props clean_draft
              {[ "quality" := ["good"] ]}) as (_ & _ & Hiff).
  apply Hiff.
  - apply Forall_singleton. intros _. reflexivity.
  - apply Forall_singleton. intros _. by exists ["good"].
Defined.

Lemma setLabels_then_commit_witness :
  ∃ draft' region',
    finishRegion true
      (setLabels {[ "kind" := ["bike"] ]} (editing unlabelled_region)) =
      Ok draft' ∧
    DraftLabels.boxes (Draft.labels draft') = [region'] ∧
    Region.labels region' = {[ "kind" := ["bike"] ]}.
Proof.
  destruct (setLabels_then_commit (editing unlabelled_region)
              (Active.mk unlabelled_region) {[ "kind" := ["bike"] ]} eq_refl)
    as (draft' & region' & Hfinish & Hlist & Hlabels & _).
  exists draft', region'. split; [exact Hfinish|]. split; [exact Hlist|].
  exact Hlabels.
Defined.

Lemma validation_ignores_other_names_witness :
  requiredFieldsFilled shortcutify_initials sample_props
    (setLabels (partial_alter (λ _, Some ["dark"]) "note" ∅) clean_draft) =
  requiredFieldsFilled shortcutify_initials sample_props
    (setLabels ∅ clean_draft).
Proof.
  apply (validation_ignores_other_names shortcutify_initials
           shortcutify_initials_fields sample_props clean_draft ∅ "note"
           (Some ["dark"])).
  intros c Hc _. apply list_elem_of_singleton in Hc as ->. discriminate.
Defined.

Lemma finishRegion_once_witness :
  ∃ draft',
    finishRegion true (editing unlabelled_region) = Ok draft' ∧
    finishRegion false draft' =
      Throw "Called to finish region but no region is selected." ∧
    regionCount (Draft.labels draft') = 1.
Proof.
  eexists. split; [reflexivity|].
  destruct (finishRegion_once true (editing unlabelled_region) _ eq_refl)
    as [Hthrows Hcount].
  split; [apply Hthrows|exact Hcount].
Defined.

Lemma run_keeps_regions_witness :
  ∃ draft',
    run [SetLabels {[ "kind" := ["car"] ]}; FinishRegion true;
         SetDrawingMode Mode.masks; SetRadius 7]
      (editing unlabelled_region) = Ok draft' ∧
    Draft.dirty draft' = true.
Proof.
  eexists. split; [reflexivity|].
  apply (run_keeps_regions
           [SetLabels {[ "kind" := ["car"] ]}; FinishRegion true;
            SetDrawingMode Mode.masks; SetRadius 7]
           (editing unlabelled_region) _ eq_refl).
  by right.
Defined.

Lemma drawingModePanel_available_witness :
  drawingModePanel shortcutify_initials sample_props clean_draft Mode.polygons =
    Some (setDrawingMode Mode.polygons clean_draft).
Proof.
  apply (drawingModePanel_available shortcutify_initials
           shortcutify_initials_fields sample_props clean_draft).
  by repeat split.
Defined.

Lemma add_keeps_names_unique_witness :
  ∃ l,
    Config.get Level.image
      {| Config.image := Some (shortcutify_initials [quality] ++ [kind]);
         Config.regions := Some (shortcutify_initials [kind]) |} = Some l ∧
    NoDup (LabelConfig.name <$> l) ∧
    length l = 2.
Proof.
  apply (add_keeps_names_unique shortcutify_initials
           shortcutify_initials_fields sample_props clean_draft
           (State.mk true None) (State.mk false None) kind Level.image).
  - reflexivity.
  - apply NoDup_singleton.
  - reflexivity.
Defined.

Lemma edit_skips_name_check_witness :
  ∃ config' l,
    onSave shortcutify_initials wide_props clean_draft
      (State.mk true (Some 0%Z)) kind Level.image =
      Ok (config', State.mk false None) ∧
    Config.get Level.image config' = Some l ∧
    ¬ NoDup (LabelConfig.name <$> l).
Proof.
  apply (edit_skips_name_check shortcutify_initials
           shortcutify_initials_fields wide_props clean_draft
           (State.mk true (Some 0%Z)) kind Level.image 0%Z 1 kind).
  - reflexivity.
  - cbn. lia.
  - discriminate.
  - reflexivity.
  - reflexivity.
Defined.

Lemma editConfig_then_onSave_witness :
  ∃ edit (i : nat),
    editConfig shortcutify_initials sample_props clean_draft = Some edit ∧
    onSave shortcutify_initials sample_props clean_draft (edit "quality")
      kind Level.image =
      Ok (Config.set Level.image
            (<[i := kind]> (shortcutify_initials [quality]))
            {| Config.image := Some (shortcutify_initials [quality]);
               Config.regions := Some (shortcutify_initials [kind]) |},
          State.mk false None).
Proof.
  eexists.
  destruct (editConfig_then_onSave shortcutify_initials sample_props
              clean_draft _ "quality" kind eq_refl)
    as (i & c & _ & _ & _ & Hsave).
  { apply list_elem_of_singleton. reflexivity. }
  exists i. split; [reflexivity|exact Hsave].
Defined.

Lemma editConfig_unknown_name_witness :
  ∃ edit,
    editConfig shortcutify_initials sample_props clean_draft = Some edit ∧
    edit "colour" = State.mk true (Some (-1)%Z) ∧
    onSave shortcutify_initials sample_props clean_draft (edit "colour")
      kind Level.image =
      Ok ({| Config.image := Some (kind :: shortcutify_initials [quality]);
             Config.regions := Some (shortcutify_initials [kind]) |},
          State.mk false None).
Proof.
  eexists. split; [reflexivity|].
  destruct (editConfig_unknown_name shortcutify_initials sample_props
              clean_draft _ "colour" eq_refl) as [Hindex Hsave].
  { intros H. apply list_elem_of_singleton in H. discriminate. }
  split; [exact Hindex|exact (Hsave kind)].
Defined.

Lemma mask_pixels_witness :
  ∃ image,
    maskEffect is_one (Some sample_bitmap) ActiveColor.red (mounted true) =
      Ok (Some image) ∧
    ImageData.data image !! 3 = Some 255%Z ∧
    ImageData.data image !! 7 = Some 0%Z.
Proof.
  eexists. split; [reflexivity|].
  pose proof (mask_pixels is_one sample_bitmap ActiveColor.red (mounted true)
                _ eq_refl) as Hmask.
  cbv zeta in Hmask. destruct Hmask as (_ & _ & _ & Hpixels).
  split.
  - apply (Hpixels 0 3); simpl; lia.
  - apply (Hpixels 1 3); simpl; lia.
Defined.

Lemma answering_keeps_filled_witness :
  requiredFieldsFilled shortcutify_initials sample_props
    (setLabels (<[ "note" := ["dark"] ]> {[ "quality" := ["good"] ]})
       clean_draft) = true.
Proof.
  apply (answering_keeps_filled shortcutify_initials
           shortcutify_initials_fields sample_props clean_draft
           {[ "quality" := ["good"] ]} "note" ["dark"]).
  - discriminate.
  - reflexivity.
Defined.

Lemma optional_definitions_never_block_witness :
  requiredFieldsFilled shortcutify_initials optional_props clean_draft = true ∧
  requiredFieldsFilled shortcutify_initials optional_props
    (editing unlabelled_region) = true.
Proof.
  split.
  - apply (optional_definitions_never_block shortcutify_initials
             shortcutify_initials_fields optional_props clean_draft).
    by apply Forall_singleton.
  - apply (optional_definitions_never_block shortcutify_initials
             shortcutify_initials_fields optional_props
             (editing unlabelled_region)).
    by apply Forall_singleton.
Defined.

Lemma setFlood_only_in_masks_witness :
  setFlood true clean_draft = clean_draft ∧
  Drawing.flood
    (Draft.drawing (setFlood true (setDrawingMode Mode.masks clean_draft))) =
    true.
Proof.
  split.
  - apply (setFlood_only_in_masks true clean_draft). discriminate.
  - apply (setFlood_only_in_masks true (setDrawingMode Mode.masks clean_draft)).
    reflexivity.
Defined.

Lemma labelPanel_guard_witness :
  labelPanel shortcutify_initials sample_props clean_draft
    {[ "quality" := ["good"] ]} =
    Some (setLabels {[ "quality" := ["good"] ]} clean_draft).
Proof.
  apply (labelPanel_guard shortcutify_initials sample_props clean_draft).
  split; [reflexivity|]. split; [|reflexivity]. intros active. discriminate.
Defined.

Lemma keyboardHandler_one_reaction_witness :
  keyboardHandler shortcutify_initials sample_props dirty_draft
    (press "ArrowRight") =
    [CallOnKeyboardEvent (press "ArrowRight");
     SetToast
       "Please save or reset your changes before advancing to next item."].
Proof.
  destruct (keyboardHandler_one_reaction shortcutify_initials sample_props
              dirty_draft (press "ArrowRight"))
    as [Hnone|[(m & _ & Htoast)|(t & _ & Hclick)]].
  - discriminate Hnone.
  - rewrite Htoast. injection Htoast as <-. reflexivity.
  - discriminate Hclick.
Defined.

Lemma setLabels_frame_witness :
  Draft.dirty (setLabels {[ "quality" := ["good"] ]} clean_draft) = true ∧
  Region.readonly <$>
    (Active.region <$>
       Drawing.active (Draft.drawing
         (setLabels {[ "kind" := ["bike"] ]} (editing readonly_region)))) =
    Some true.
Proof.
  split.
  - exact (proj1 (setLabels_frame clean_draft {[ "quality" := ["good"] ]})).
  - pose proof (setLabels_frame (editing readonly_region)
                  {[ "kind" := ["bike"] ]}) as Hframe.
    cbv zeta in Hframe.
    destruct Hframe
      as (_ & _ & _ & _ & _ & _ & _ & region' & Hactive & _ & _ & _ & Hro & _).
    rewrite Hactive. simpl. by rewrite Hro.
Defined.

Lemma toast_reaches_snackbar_witness :
  Labeler.toast
    (Labeler.notified
       (keyboardHandler shortcutify_initials sample_props clean_draft
          (press "Enter"))
       (Labeler.mk "" false)) = "Please fill in all required fields." ∧
  Labeler.snackbarOpen
    (Labeler.notified
       (keyboardHandler shortcutify_initials sample_props clean_draft
          (press "Enter"))
       (Labeler.mk "" false)) = true.
Proof.
  destruct (toast_reaches_snackbar shortcutify_initials sample_props
              clean_draft (press "Enter") (Labeler.mk "" false))
    as [Hshown _].
  apply Hshown. apply list_elem_of_In. vm_compute. auto.
Defined.

Lemma empty_entry_is_missing_witness :
  requiredFieldsFilled shortcutify_initials sample_props
    (setLabels (<[ "quality" := [] ]> ∅) clean_draft) =
  requiredFieldsFilled shortcutify_initials sample_props
    (setLabels (delete "quality" ∅) clean_draft).
Proof.
  apply (empty_entry_is_missing shortcutify_initials sample_props clean_draft
           ∅ "quality").
  reflexivity.
Defined.
